(** * Arrhenius: the artifact cache of the web API and the statistics helpers

    A shallow embedding of [api.py] (the request handlers, the three
    ensure-present operations and the error handlers) and of
    [data/statistics.py] ([sum_table], [mean], [variance],
    [convert_grid_data_to_table]).

    Python exceptions are values of [exn]; a computation that may raise
    returns a [pyresult].  Floating point numbers are the kernel's binary64
    floats, which is what [numpy.float64] and Python's [float] are. *)

From Stdlib Require Import Floats Uint63 ZArith Lia Ascii String.
From stdpp Require Import gmap strings list fin_maps pretty.

Local Open Scope Z_scope.
Set Warnings "-register-all".

(** ** Exceptions and results *)

(** The exception classes the two modules raise or catch.  [IOError] carries
    its [errno] attribute ([None] when the exception was built without one);
    [NotFound] is werkzeug's HTTP 404 exception raised by
    [send_from_directory]. *)
Inductive exn : Type :=
| ZeroDivisionError
| IndexError
| ValueError
| InvalidConfigError (msg : string)
| IOError (errno : option Z)
| NotFound
| RuntimeError (msg : string).

Inductive pyresult (A : Type) : Type :=
| Ok (a : A)
| Raise (e : exn).
Arguments Ok {A} a.
Arguments Raise {A} e.

#[global] Instance pyresult_ret : MRet pyresult := fun _ a => Ok a.

#[global] Instance pyresult_bind : MBind pyresult := fun _ _ k r =>
  match r with
  | Ok a => k a
  | Raise e => Raise e
  end.

(** ** data/statistics.py *)

Module Statistics.

(** A Python number: an [int] or a float64. *)
Inductive pynum : Type :=
| PyInt (z : Z)
| PyFloat (x : float).

Definition float_of_Z (z : Z) : float :=
  if z <? 0 then PrimFloat.opp (PrimFloat.of_uint63 (Uint63.of_Z (- z)))
  else PrimFloat.of_uint63 (Uint63.of_Z z).

Definition to_float (a : pynum) : float :=
  match a with
  | PyInt z => float_of_Z z
  | PyFloat x => x
  end.

(** [a + b]: exact on two ints, float64 addition as soon as one side is a
    float. *)
Definition py_add (a b : pynum) : pynum :=
  match a, b with
  | PyInt x, PyInt y => PyInt (x + y)
  | _, _ => PyFloat (PrimFloat.add (to_float a) (to_float b))
  end.

(** [a / b].  Only [int / int] raises on a zero divisor: a [numpy.float64]
    dividend gives inf or nan instead. *)
Definition truediv (a b : pynum) : pyresult pynum :=
  match a, b with
  | PyInt _, PyInt y =>
      if y =? 0 then Raise ZeroDivisionError
      else Ok (PyFloat (PrimFloat.div (to_float a) (to_float b)))
  | _, _ => Ok (PyFloat (PrimFloat.div (to_float a) (to_float b)))
  end.

(** A numpy array as the code walks it: iterating an array of dimension
    n+1 yields its items, arrays of dimension n, and iterating a
    1-dimensional array yields [numpy.float64] scalars.  [sub] is the shape
    of every item, which numpy keeps even when there are no items. *)
Inductive ndarray : Type :=
| Scalar (x : float)
| Array (sub : list nat) (items : list ndarray).

Definition shape (a : ndarray) : list nat :=
  match a with
  | Scalar _ => []
  | Array sub items => length items :: sub
  end.

Definition ndim (a : ndarray) : nat := length (shape a).

(** The arrays numpy can build: every item has the recorded shape. *)
Fixpoint wf (a : ndarray) : bool :=
  match a with
  | Scalar _ => true
  | Array sub items =>
      forallb (fun it => wf it && bool_decide (shape it = sub)) items
  end.

(** [data[i]] *)
Definition item (data : ndarray) (i : nat) : pyresult ndarray :=
  match data with
  | Scalar _ => Raise IndexError
  | Array _ items =>
      match items !! i with
      | Some it => Ok it
      | None => Raise IndexError
      end
  end.

(** [sum_table(table, modifier)]: the sum of the modified valid elements and
    their number.  Both counters start as the int [0], and a valid element
    contributes [modifier(table)] as the modifier returns it, an int or a
    float. *)
Fixpoint sum_table (modifier : float -> pynum) (table : ndarray) : pynum * Z :=
  match table with
  | Array _ items =>
      fold_left
        (fun acc subarray =>
           let '(total, num_valid_elems) := acc in
           let '(sub_total, sub_valid_cells) := sum_table modifier subarray in
           (py_add total sub_total, num_valid_elems + sub_valid_cells))
        items (PyInt 0, 0)
  | Scalar x =>
      if negb (PrimFloat.is_nan x) then (modifier x, 1)
      else (PyInt 0, 0)
  end.

(** The [try ... except ZeroDivisionError: return nan] of [mean] and
    [variance]. *)
Definition nan_on_zero_division (r : pyresult pynum) : pyresult pynum :=
  match r with
  | Raise ZeroDivisionError => Ok (PyFloat PrimFloat.nan)
  | _ => r
  end.

Definition mean (data : ndarray) : pyresult pynum :=
  let '(sum_cells, num_valid_cells) := sum_table (fun x => PyFloat x) data in
  nan_on_zero_division (truediv sum_cells (PyInt num_valid_cells)).

Definition variance (data : ndarray) : pyresult pynum :=
  let '(sum_sqrs, num_valid_cells) :=
    sum_table (fun x => PyFloat (PrimFloat.mul x x)) data in
  nan_on_zero_division (truediv sum_sqrs (PyInt num_valid_cells)).

(** [np.array(table)] for a list of rows of numbers: the rows become the
    items, and the row length is taken from the first row.  An empty list
    gives the 1-dimensional empty array, of shape (0,). *)
Definition np_array (table : list (list pynum)) : ndarray :=
  Array (match table with [] => [] | row :: _ => [length row] end)
        (map (fun row => Array [] (map (fun v => Scalar (to_float v)) row))
             table).

Definition atleast_1d (a : ndarray) : ndarray :=
  match a with
  | Scalar x => Array [] [a]
  | Array _ _ => a
  end.

(** [np.concatenate((a, b), 0)]: the items of [b] after those of [a]; the
    shapes of the items must agree. *)
Definition concatenate0 (a b : ndarray) : pyresult ndarray :=
  match a, b with
  | Array sa ia, Array sb ib =>
      if decide (sa = sb) then Ok (Array sa (ia ++ ib)) else Raise ValueError
  | _, _ => Raise ValueError
  end.

(** [np.concatenate((a, b), 1)]: item by item along the second axis. *)
Definition concatenate1 (a b : ndarray) : pyresult ndarray :=
  match a, b with
  | Array (na :: ra) ia, Array (nb :: rb) ib =>
      if decide (ra = rb /\ length ia = length ib) then
        items ← mapM (fun xy => concatenate0 xy.1 xy.2) (zip ia ib);
        Ok (Array ((na + nb)%nat :: ra) items)
      else Raise ValueError
  | _, _ => Raise ValueError
  end.

(** [np.hstack((a, b))] *)
Definition hstack (a b : ndarray) : pyresult ndarray :=
  let a := atleast_1d a in
  let b := atleast_1d b in
  if (ndim a =? 1)%nat then concatenate0 a b else concatenate1 a b.

(** The [data.ndim == 3] branch of [convert_grid_data_to_table]: one row per
    latitude band, one cell per time segment, the cell being
    [mean(data[time_seg, lat_band, :])]. *)
Definition convert_3d (data : ndarray) : pyresult ndarray :=
  table ← mapM (fun lat_band =>
             mapM (fun time_seg =>
                     by_time ← item data time_seg;
                     data_slice ← item by_time lat_band;
                     mean data_slice)
                  (seq 0 (nth 0 (shape data) 0%nat)))
          (seq 0 (nth 1 (shape data) 0%nat));
  Ok (np_array table).

Fixpoint convert_grid_data_to_table (data : ndarray) : pyresult ndarray :=
  if (ndim data =? 2)%nat then Ok data
  else if (ndim data =? 3)%nat then convert_3d data
  else
    match data with
    | Scalar _ => Raise IndexError
    | Array _ [] => Raise IndexError
    | Array _ (first :: rest) =>
        table ← convert_grid_data_to_table first;
        (fix loop (rows : list ndarray) (table : ndarray) : pyresult ndarray :=
           match rows with
           | [] => Ok table
           | row :: rows' =>
               converted ← convert_grid_data_to_table row;
               table' ← hstack table converted;
               loop rows' table'
           end) rest table
    end.

(** The cell [table[i, j]] of a 2-dimensional array. *)
Definition cell (table : ndarray) (i j : nat) : pyresult ndarray :=
  row ← item table i; item row j.

(** *** Vocabulary of the properties *)

(** No element of the array is a valid number: all are nan, or there is
    none. *)
Fixpoint no_valid_elements (a : ndarray) : bool :=
  match a with
  | Scalar x => PrimFloat.is_nan x
  | Array _ items => forallb no_valid_elements items
  end.

(** The number of elements that are not nan. *)
Fixpoint valid_count (a : ndarray) : Z :=
  match a with
  | Scalar x => if PrimFloat.is_nan x then 0 else 1
  | Array _ items => fold_right (fun it n => valid_count it + n) 0 items
  end.

(** A valid number is one that is not nan. *)
Definition valid (x : float) : bool := negb (PrimFloat.is_nan x).

(** The valid numbers of a list, in the order of the list. *)
Definition valid_values (xs : list float) : list float := List.filter valid xs.

(** The float64 sum of a list of numbers, added from left to right to 0. *)
Definition float_sum (vs : list float) : float :=
  fold_left PrimFloat.add vs 0%float.

(** The mean of a list of numbers: their sum over their number, nan for the
    empty list. *)
Definition mean_of_values (vs : list float) : float :=
  match vs with
  | [] => PrimFloat.nan
  | _ => PrimFloat.div (float_sum vs) (float_of_Z (Z.of_nat (length vs)))
  end.

(** [f x] for a valid [x], and 0 in the place of a nan. *)
Definition nan_as_zero (f : float -> float) (x : float) : float :=
  if PrimFloat.is_nan x then 0%float else f x.

(** The mean of the [f x] over the valid [x] of a list, with every addition
    written out: a nan of the list adds 0 to the running sum, and does not
    count in the divisor.  nan when the list has no valid number. *)
Definition mean_skipping_nan (f : float -> float) (xs : list float) : float :=
  match valid_values xs with
  | [] => PrimFloat.nan
  | vs => PrimFloat.div (float_sum (map (nan_as_zero f) xs))
                        (float_of_Z (Z.of_nat (length vs)))
  end.

(** The two zeros of float64, 0.0 and -0.0: equal as numbers ([==] in
    Python), distinct as bit patterns. *)
Definition zero (x : float) : Prop := x = 0%float \/ x = (-0)%float.

(** The same float64, or two zeros: adding 0.0 to a running sum keeps the
    sum but for turning -0.0 into 0.0. *)
Definition same_number (x y : float) : Prop := x = y \/ (zero x /\ zero y).

(** What [sum_table] computes on an item: the count is the number of valid
    elements, it is not negative, and without a valid element the sum is
    still the int [0] it started as. *)
Definition counted (modifier : float -> pynum) (it : ndarray) : Prop :=
  (sum_table modifier it).2 = valid_count it /\
  0 <= valid_count it /\
  (valid_count it = 0 -> (sum_table modifier it).1 = PyInt 0).

(** One row of the table: the means over latitude band [i], one per time
    segment. *)
Definition row_of (data : ndarray) (time i : nat) (row : list pynum) : Prop :=
  length row = time /\
  forall j, (j < time)%nat ->
    exists by_time data_slice v,
      item data j = Ok by_time /\ item by_time i = Ok data_slice /\
      mean data_slice = Ok (PyFloat v) /\ row !! j = Some (PyFloat v).

(** *** Sample arrays *)

Definition row (xs : list float) : ndarray := Array [] (map Scalar xs).

(** Two time segments, two latitude bands, three longitudes. *)
Definition sample_grid : ndarray :=
  Array [2; 3]%nat
    [Array [3]%nat [row [1; 2; 3]%float; row [nan; nan; nan]%float];
     Array [3]%nat [row [4; nan; 6]%float; row [7; 8; 10]%float]].

(** A table of two latitude bands and two time segments. *)
Definition sample_table : ndarray :=
  Array [2]%nat [row [1; 2]%float; row [3; nan]%float].

(** Two time segments and three longitudes, but no latitude band: what
    [np.zeros((2, 0, 3))] builds. *)
Definition grid_without_bands : ndarray :=
  Array [0; 3]%nat [Array [3]%nat []; Array [3]%nat []].

(** *** The standard deviation *)

(** [math.sqrt(x)]: a negative argument is a [ValueError] (math domain
    error); nan and negative zero pass through. *)
Definition py_sqrt (x : float) : pyresult float :=
  if PrimFloat.ltb x 0 then Raise ValueError else Ok (PrimFloat.sqrt x).

Definition std_dev (data : ndarray) : pyresult float :=
  smpl_variance ← variance data; py_sqrt (to_float smpl_variance).


(** *** Tables as text *)

Definition repeat_char (c : ascii) (n : nat) : string :=
  string_of_list_ascii (replicate n c).

(** A cell cut to [length] characters ([s[:length]]) or filled up with
    blanks on the right ([s.ljust(length, " ")]). *)
Definition fit (s : string) (length : nat) : string :=
  if (length <? String.length s)%nat then substring 0 length s
  else if (String.length s <? length)%nat
       then s +:+ repeat_char " " (length - String.length s)
       else s.

(** [_format_row(cell_values, length)]; [str] is Python's [str] on the
    cells. *)
Definition _format_row {A} (str : A -> string) (cell_values : list A)
    (length : nat) : string :=
  String.concat " | " (map (fun v => fit (str v) length) cell_values).

(** [sep.join([left, right])] *)
Definition join_pair (sep left right : string) : string :=
  left +:+ sep +:+ right.

(** [merge_str_tables(table1, table2, sep)] *)
Definition merge_str_tables (table1 table2 : list string) (sep : string)
  : pyresult (list string) :=
  if bool_decide (length table1 <> length table2) then Raise IndexError
  else Ok (zip_with (join_pair sep) table1 table2).

(** The default separator, [" " * 12]. *)
Definition default_sep : string := repeat_char " " 12.

Section Tables.

(** The cells of a table and Python's [str] on them; [floor_log10 n] is
    [int(floor(log10(n)))] of the [math] module, for [n >= 1].  A table is
    walked as the list of its rows. *)
Context {A : Type} (str : A -> string) (floor_log10 : nat -> nat).

Definition convert_table_to_strs (table : list (list A))
  : pyresult (list string) :=
  match table with
  | [] => Raise IndexError
  | first :: _ =>
      let headings :=
        map (fun i : nat => "Division " +:+ pretty i)
            (seq 1 (length first)) in
      let cell_length := (floor_log10 (length table) + 10)%nat in
      let strs_table :=
        map (fun row => _format_row str row cell_length) table
        ++ [_format_row (fun s : string => s)
              (replicate (length first) (repeat_char "-" cell_length))
              cell_length;
            _format_row (fun s : string => s) headings cell_length] in
      Ok (reverse strs_table)
  end.

(** The loop of [print_tables] over the tables after the first. *)
Fixpoint merge_all (first_as_strs : list string)
    (extras : list (list (list A))) : pyresult (list string) :=
  match extras with
  | [] => Ok first_as_strs
  | extra :: extras' =>
      extra_as_strs ← convert_table_to_strs extra;
      merged ← merge_str_tables first_as_strs extra_as_strs default_sep;
      merge_all merged extras'
  end.

(** [print_tables] on its tables: the result holds the lines printed, an empty
    line before and after the rows. *)
Definition print_tables (tables : list (list (list A)))
  : pyresult (list string) :=
  match tables with
  | [] => Raise IndexError
  | first :: extras =>
      first_as_strs ← convert_table_to_strs first;
      rows ← merge_all first_as_strs extras;
      Ok ([""] ++ rows ++ [""])
  end.

End Tables.

(** The loop of [convert_grid_data_to_table] over [data[1:]]: each item is
    converted and stacked to the right of the table so far. *)
Fixpoint stack_rows (rows : list ndarray) (table : ndarray)
  : pyresult ndarray :=
  match rows with
  | [] => Ok table
  | row :: rows' =>
      converted ← convert_grid_data_to_table row;
      table' ← hstack table converted;
      stack_rows rows' table'
  end.

(** Two sample grids stacked along a fourth, leading axis. *)
Definition sample_stack : ndarray :=
  Array [2; 2; 3]%nat [sample_grid; sample_grid].

(** A stand-in for [str] on floats and for [floor(log10(n))], to run the
    table functions on samples: nan and the digit count. *)
Definition sample_str (x : float) : string :=
  if PrimFloat.is_nan x then "nan" else "0.0".

Definition digits_minus_one (n : nat) : nat :=
  (String.length (pretty n) - 1)%nat.

End Statistics.

(** ** api.py *)

Module Api.

Local Open Scope string_scope.

(** *** Paths and the durable store *)

Definition startswith_sep (s : string) : bool :=
  match s with
  | String "/"%char _ => true
  | _ => false
  end.

Fixpoint endswith_sep (s : string) : bool :=
  match s with
  | EmptyString => false
  | String c EmptyString => bool_decide (c = "/"%char)
  | String _ rest => endswith_sep rest
  end.

(** One iteration of the loop of [posixpath.join]. *)
Definition join_component (path b : string) : string :=
  if startswith_sep b then b
  else if bool_decide (path = "") || endswith_sep path then path +:+ b
  else path +:+ "/" +:+ b.

(** [path.join(a, *p)] *)
Definition path_join (a : string) (p : list string) : string :=
  fold_left join_component p a.

(** What the store holds at a path.  An archive records the files that were
    packed into it. *)
Inductive node : Type :=
| Directory
| RegularFile
| ZipFile (members : list string).

(** The durable store: the file system, as a finite map from paths. *)
Abbreviation FS := (gmap string node).

(** [Path(p).exists()] *)
Definition path_exists (store : FS) (p : string) : bool :=
  bool_decide (is_Some (store !! p)).

(** [Path(p).is_file()] *)
Definition is_file (store : FS) (p : string) : bool :=
  match store !! p with
  | Some RegularFile | Some (ZipFile _) => true
  | _ => false
  end.

Definition is_dir (store : FS) (p : string) : bool :=
  match store !! p with
  | Some Directory => true
  | _ => false
  end.

(** The files below directory [root]. *)
Definition files_under (store : FS) (root : string) : list string :=
  List.filter (String.prefix (root +:+ "/"))
    (map fst
       (List.filter
          (fun kv => match kv.2 with Directory => false | _ => true end)
          (map_to_list store))).

(** [shutil.make_archive(base_name, 'zip', root_dir)]: packs the files under
    [root_dir] into [base_name + ".zip"] and returns that name; a missing
    [root_dir] is an [OSError] with errno 2. *)
Definition make_archive (base_name root_dir : string) (store : FS)
  : pyresult string * FS :=
  if is_dir store root_dir then
    (Ok (base_name +:+ ".zip"),
     <[base_name +:+ ".zip" := ZipFile (files_under store root_dir)]> store)
  else (Raise (IOError (Some 2)), store).

(** *** The configuration *)

(** [ArrheniusConfig], as far as the handlers look at it: [run_id] is
    [str(config.run_id())] and [colorbar] holds the two bounds of
    [config.colorbar()] as ["{}"] formats them. *)
Record ArrheniusConfig : Type := {
  run_id : string;
  colorbar : string * string;
}.

(** *** External collaborators *)

(** What [api.py] imports from the rest of the project: the output
    directory, the configuration parser, the simulation runner
    ([ModelRun(config, default_output_config()).run_model()]), the renderer
    [save_from_dataset] and the two naming functions of [data.display].
    The runner and the renderer act on the store and may raise. *)
Class Collaborators : Type := {
  OUTPUT_FULL_PATH : string;
  from_json_string : string -> pyresult ArrheniusConfig;
  run_model : ArrheniusConfig -> FS -> pyresult unit * FS;
  save_from_dataset :
    string -> string -> option Z -> ArrheniusConfig -> FS -> pyresult bool * FS;
  get_image_directory : string -> string -> string -> string * string -> string;
  image_file_name : string -> ArrheniusConfig -> string;
}.

(** *** The world a request runs in *)

(** The operations on artifacts, recorded with whether [img_fs_lock] was
    held when they ran. *)
Inductive event : Type :=
| EvRunModel (config : ArrheniusConfig)
| EvArchiveCheck (zip_path : string) (guard_held : bool)
| EvImageOutput (ds_parent var_name : string) (time_seg : option Z)
                (guard_held : bool)
| EvMakeArchive (base_name root_dir : string) (guard_held : bool).

Record World : Type := {
  store : FS;
  img_fs_lock : bool;   (* True while the lock is held *)
  trace : list event;
}.

(** A handler step: from a world to a result and the next world, or [None]
    when the step never finishes (it waits for a lock nobody releases). *)
Definition M (A : Type) : Type := World -> option (pyresult A * World).

#[global] Instance M_ret : MRet M := fun _ a w => Some (Ok a, w).

#[global] Instance M_bind : MBind M := fun _ _ k m w =>
  match m w with
  | Some (Ok a, w') => k a w'
  | Some (Raise e, w') => Some (Raise e, w')
  | None => None
  end.

Definition lift {A} (r : pyresult A) : M A := fun w => Some (r, w).

Definition look {A} (f : World -> A) : M A := fun w => Some (Ok (f w), w).

Definition total {A} (f : World -> pyresult A * World) : M A :=
  fun w => Some (f w).

Definition on_store {A} (f : FS -> pyresult A * FS) : M A := fun w =>
  let '(r, store') := f (store w) in
  Some (r, {| store := store'; img_fs_lock := img_fs_lock w;
              trace := trace w |}).

Definition record (ev : bool -> event) : M unit := fun w =>
  Some (Ok tt, {| store := store w; img_fs_lock := img_fs_lock w;
                  trace := trace w ++ [ev (img_fs_lock w)] |}).

Definition locked (w : World) : World :=
  {| store := store w; img_fs_lock := true; trace := trace w |}.

(** [img_fs_lock.acquire()] *)
Definition acquire : M unit := fun w =>
  if img_fs_lock w then None else Some (Ok tt, locked w).

(** [img_fs_lock.release()]; releasing an unlocked lock is a
    [RuntimeError]. *)
Definition release : M unit := fun w =>
  if img_fs_lock w then
    Some (Ok tt, {| store := store w; img_fs_lock := false;
                    trace := trace w |})
  else Some (Raise (RuntimeError "release unlocked lock"), w).

(** Whether the lock was held at an event; a model run records nothing
    about the lock. *)
Definition guard_of (ev : event) : option bool :=
  match ev with
  | EvRunModel _ => None
  | EvArchiveCheck _ held | EvImageOutput _ _ _ held
  | EvMakeArchive _ _ held => Some held
  end.

Definition is_run (ev : event) : bool :=
  match ev with
  | EvRunModel _ => true
  | _ => false
  end.

(** The number of simulation runs so far. *)
Definition runs (w : World) : nat := length (List.filter is_run (trace w)).

(** A step that starts without the lock, never takes it and records no
    event under it. *)
Definition without_guard {A} (m : M A) : Prop :=
  forall w r w',
    img_fs_lock w = false -> m w = Some (r, w') ->
    img_fs_lock w' = false /\
    exists evs : list event,
      trace w' = (trace w ++ evs)%list /\
      Forall (fun ev => guard_of ev <> Some true) evs.

(** *** Built-ins and Flask helpers *)

Definition is_space (c : ascii) : bool :=
  let n := nat_of_ascii c in
  ((9 <=? n) && (n <=? 13) || (n =? 32))%nat.

Definition digit_value (c : ascii) : option Z :=
  let n := nat_of_ascii c in
  if ((48 <=? n) && (n <=? 57))%nat then Some (Z.of_nat n - 48) else None.

Fixpoint lstrip (s : string) : string :=
  match s with
  | String c rest => if is_space c then lstrip rest else s
  | EmptyString => s
  end.

Definition strip (s : string) : string :=
  String.rev (lstrip (String.rev (lstrip s))).

(** The digits of a decimal literal; single underscores may separate
    digits. *)
Fixpoint digits (acc : Z) (after_digit : bool) (s : string) : option Z :=
  match s with
  | EmptyString => if after_digit then Some acc else None
  | String c rest =>
      match digit_value c with
      | Some d => digits (10 * acc + d) true rest
      | None =>
          if bool_decide (c = "_"%char) && after_digit
          then digits acc false rest
          else None
      end
  end.

(** [int(s)] for a string: white space around, an optional sign, decimal
    digits; anything else is a [ValueError]. *)
Definition int_of_str (s : string) : pyresult Z :=
  let parsed :=
    match strip s with
    | String "-"%char rest => Z.opp <$> digits 0 false rest
    | String "+"%char rest => digits 0 false rest
    | body => digits 0 false body
    end in
  match parsed with
  | Some z => Ok z
  | None => Raise ValueError
  end.

(** What a handler hands back to Flask. *)
Inductive payload : Type :=
| FileAt (path : string)      (* the file attached by [send_from_directory] *)
| Html (markup : string)
| DefaultPage.                (* werkzeug's own page for an HTTP exception *)

Record response : Type := {
  body : payload;
  status : Z;
}.

(** [send_from_directory(directory, filename)]: the file must exist below
    the directory, otherwise [NotFound]. *)
Definition send_from_directory (directory filename : string) : M payload :=
  fun w =>
    let target := path_join directory [filename] in
    if startswith_sep filename || bool_decide (filename = "..")
       || String.prefix "../" filename
    then Some (Raise NotFound, w)
    else if is_file (store w) target then Some (Ok (FileAt target), w)
    else Some (Raise NotFound, w).

Section Handlers.

Context `{Collaborators}.

(** *** The ensure-present operations *)

Definition dataset_parent_of (config : ArrheniusConfig) : string :=
  path_join OUTPUT_FULL_PATH [run_id config].

(** [not Path(dataset_parent).exists()] *)
Definition dataset_missing (config : ArrheniusConfig) (w : World) : bool :=
  negb (path_exists (store w) (dataset_parent_of config)).

(** [ModelRun(config, output_center).run_model()] *)
Definition model_run (config : ArrheniusConfig) (w : World)
  : pyresult unit * World :=
  let '(r, store') := run_model config (store w) in
  (r, {| store := store'; img_fs_lock := img_fs_lock w;
         trace := trace w ++ [EvRunModel config] |}).

Definition ensure_model_results (config : ArrheniusConfig)
  : M (string * bool) :=
  let dataset_parent := dataset_parent_of config in
  missing ← look (dataset_missing config);
  if missing : bool then
    _ ← total (model_run config);
    mret (dataset_parent, true)
  else mret (dataset_parent, false).

Definition ensure_image_output (ds_parent var_name : string)
    (time_seg : option Z) (config : ArrheniusConfig) : M (string * bool) :=
  _ ← record (EvImageOutput ds_parent var_name time_seg);
  created ← on_store (save_from_dataset ds_parent var_name time_seg config);
  let img_parent :=
    get_image_directory ds_parent (run_id config) var_name (colorbar config) in
  mret (img_parent, created).

(** *** The endpoints.  [data] is the decoded request body. *)

Definition response_code (model_created img_created : bool) : Z :=
  if model_created || img_created then 201 else 200.

(** POST /model/dataset *)
Definition scientific_dataset (data : string) : M response :=
  config ← lift (from_json_string data);
  let dataset_name := run_id config +:+ ".nc" in
  '(dataset_parent, created) ← ensure_model_results config;
  let code := if created : bool then 201 else 200 in
  file ← send_from_directory dataset_parent dataset_name;
  mret {| body := file; status := code |}.

(** POST /model/<varname>/<time_seg> *)
Definition single_model_data (varname time_seg data : string) : M response :=
  config ← lift (from_json_string data);
  '(parent_dir, model_created) ← ensure_model_results config;
  _ ← acquire;
  seg ← lift (int_of_str time_seg);
  '(download_path, img_created) ←
    ensure_image_output parent_dir varname (Some seg) config;
  _ ← release;
  let base_name := varname +:+ "_" +:+ time_seg in
  let file_name := image_file_name base_name config +:+ ".png" in
  let code := response_code model_created img_created in
  file ← send_from_directory download_path file_name;
  mret {| body := file; status := code |}.

Definition scale_suffix_of (config : ArrheniusConfig) : string :=
  "[" +:+ (colorbar config).1 +:+ "x" +:+ (colorbar config).2 +:+ "]".

Definition scale_dir_name_of (config : ArrheniusConfig) : string :=
  run_id config +:+ "_" +:+ scale_suffix_of config.

Definition archive_name_of (varname : string) (config : ArrheniusConfig)
  : string :=
  run_id config +:+ "_" +:+ varname +:+ "_" +:+ scale_suffix_of config.

(** POST /model/<varname> *)
Definition multi_model_data (varname data : string) : M response :=
  config ← lift (from_json_string data);
  let scale_dir_name := scale_dir_name_of config in
  let archive_name := archive_name_of varname config in
  '(ds_parent, model_created) ← ensure_model_results config;
  let archive_path := path_join ds_parent [scale_dir_name; archive_name] in
  _ ← record (EvArchiveCheck (archive_path +:+ ".zip"));
  present ← look (fun w => is_file (store w) (archive_path +:+ ".zip"));
  img_created ←
    (if negb present : bool then
       '(archive_src, img_created) ←
         ensure_image_output ds_parent varname None config;
       _ ← record (EvMakeArchive archive_path archive_src);
       _ ← on_store (make_archive archive_path archive_src);
       mret img_created
     else mret false);
  let code := response_code model_created img_created in
  file ← send_from_directory ds_parent (archive_name +:+ ".zip");
  mret {| body := file; status := code |}.

(** *** Concurrent calls of [ensure_model_results] *)















End Handlers.

(** *** The error handlers *)

Definition nl : string := String (ascii_of_nat 10) EmptyString.

Definition error_template (title msg : string) : string :=
  let head := "<DOCTYPE html>"
              +:+ (nl +:+ "<head>")
              +:+ (nl +:+ "  <title>") +:+ title +:+ "</title>"
              +:+ (nl +:+ "</head>") in
  let body := "<body>"
              +:+ (nl +:+ "  <h1>") +:+ title +:+ "</h1>"
              +:+ (nl +:+ "  <hr>")
              +:+ (nl +:+ "  <p>") +:+ msg +:+ "</p>"
              +:+ (nl +:+ "</body>") in
  head +:+ nl +:+ body.

(** [str(err)] of an [InvalidConfigError] is its message. *)
Definition handle_invalid_config (msg : string) : response :=
  {| body := Html (error_template "Invalid Configuration" msg);
     status := 400 |}.

Definition insufficient_space_msg : string :=
  "The server has insufficient disk space to produce output"
  +:+ " from a model run, and has failed to either produce a dataset"
  +:+ " for model results or to write image files from said results."
  +:+ " Consider placing a request for fewer resources at a time to"
  +:+ " lighten the load on server while it tries to free up space.".

Definition failed_disk_io_msg : string :=
  "The server has failed to perform disk IO, most likely due to a"
  +:+ " malformed path. Please report this error to project engineers.".

Definition handle_enomem (errno : option Z) : response :=
  if bool_decide (errno = Some 28) then
    {| body := Html (error_template "Insufficient Space"
                                    insufficient_space_msg);
       status := 413 |}
  else
    {| body := Html (error_template "Failed Disk IO" failed_disk_io_msg);
       status := 500 |}.

Definition internal_error_msg : string :=
  "We are sorry, but our server is still young and has experienced an"
  +:+ " unexpected error. Please report this error to project engineers to"
  +:+ " get it patched sooner.".

Definition handle_failure (err : exn) : response :=
  {| body := Html (error_template "Internal Error" internal_error_msg);
     status := 500 |}.

(** The handlers as the [errorhandler] decorators register them: by
    exception class for the first two, and [handle_failure] for whatever
    would end as a 500.  [NotFound] is an HTTP exception with no handler of
    the application: Flask answers with werkzeug's 404 page. *)
Definition handle_exception (err : exn) : response :=
  match err with
  | InvalidConfigError msg => handle_invalid_config msg
  | IOError errno => handle_enomem errno
  | NotFound => {| body := DefaultPage; status := 404 |}
  | _ => handle_failure err
  end.

(** An error that neither has a handler of its own class nor is an HTTP
    exception. *)
Definition unhandled (err : exn) : bool :=
  match err with
  | InvalidConfigError _ | IOError _ | NotFound => false
  | _ => true
  end.

(** A request served: the handler's response, or the response of the error
    handler when it raised. *)
Definition serve (handler : M response) (w : World)
  : option (response * World) :=
  match handler w with
  | Some (Ok r, w') => Some (r, w')
  | Some (Raise e, w') => Some (handle_exception e, w')
  | None => None
  end.

(** *** Collaborators to run the handlers with *)

Definition reference_scale_dir (run_id : string) (colorbar : string * string)
  : string :=
  run_id +:+ "_" +:+ ("[" +:+ colorbar.1 +:+ "x" +:+ colorbar.2 +:+ "]").

(** Modelled from the spec: [get_image_directory] of [data.display] is not
    under src/.  The image directory of a variable lies in the
    subdirectory of the run id and colour scale, below the dataset
    directory (persisted layout, section 6). *)
Definition reference_image_directory (ds_parent run_id var_name : string)
    (colorbar : string * string) : string :=
  path_join ds_parent [reference_scale_dir run_id colorbar; var_name].

(** Modelled from the spec: [image_file_name] of [data.display] is not under
    src/ and the spec leaves the name open; the base name followed by the
    run id stands for it. *)
Definition reference_image_file_name (base_name : string)
    (config : ArrheniusConfig) : string :=
  base_name +:+ "_" +:+ run_id config.

(** The image of one time segment, where [single_model_data] looks for
    it. *)
Definition reference_image_path (ds_parent var_name : string)
    (config : ArrheniusConfig) (seg : Z) : string :=
  path_join
    (reference_image_directory ds_parent (run_id config) var_name
                               (colorbar config))
    [reference_image_file_name (var_name +:+ "_" +:+ pretty seg) config
     +:+ ".png"].

(** Modelled from the spec: [save_from_dataset] of [data.display] (the
    Renderer) is not under src/.  It requires the dataset of the run to
    exist in [ds_parent] and fails otherwise, without creating it; with a
    time segment it renders that image, with none it renders segment 0 (the
    average) and the [segments] time segments; an image that is already
    there is skipped; the result tells whether any image was written. *)
Definition reference_save_from_dataset (segments : nat)
    (ds_parent var_name : string) (time_seg : option Z)
    (config : ArrheniusConfig) (store : FS) : pyresult bool * FS :=
  if is_file store (path_join ds_parent [run_id config +:+ ".nc"]) then
    let wanted :=
      match time_seg with
      | Some seg => [seg]
      | None => map Z.of_nat (seq 0 (S segments))
      end in
    let missing :=
      List.filter (fun f => negb (is_file store f))
        (map (reference_image_path ds_parent var_name config) wanted) in
    (Ok (negb (bool_decide (missing = []))),
     foldr (fun f st => <[f := RegularFile]> st)
       (<[reference_image_directory ds_parent (run_id config) var_name
            (colorbar config) := Directory]> store)
       missing)
  else (Raise (IOError (Some 2)), store).

(** Modelled from the spec: [ModelRun.run_model] of [runner] (the Simulation
    Runner) is not under src/.  After it returns, the directory of the run
    id exists below the output directory and holds the dataset file named
    by the run id. *)
Definition reference_run_model (output : string) (config : ArrheniusConfig)
    (store : FS) : pyresult unit * FS :=
  (Ok tt,
   <[path_join output [run_id config; run_id config +:+ ".nc"]
       := RegularFile]>
     (<[path_join output [run_id config] := Directory]> store)).

(** A stand-in for the configuration parser, which is not under src/: the
    request body is taken as the run id, the colour scale is fixed, and an
    empty body is an invalid configuration. *)
Definition reference_from_json_string (data : string)
  : pyresult ArrheniusConfig :=
  if bool_decide (data = "") then Raise (InvalidConfigError "empty request")
  else Ok {| run_id := data; colorbar := ("-1", "1") |}.

Definition reference (segments : nat) : Collaborators := {|
  OUTPUT_FULL_PATH := "output";
  from_json_string := reference_from_json_string;
  run_model := reference_run_model "output";
  save_from_dataset := reference_save_from_dataset segments;
  get_image_directory := reference_image_directory;
  image_file_name := reference_image_file_name;
|}.

(** The same collaborators with a renderer that finds the disk full
    (errno 28, ENOSPC). *)
Definition disk_full : Collaborators := {|
  OUTPUT_FULL_PATH := "output";
  from_json_string := reference_from_json_string;
  run_model := reference_run_model "output";
  save_from_dataset := fun _ _ _ _ store => (Raise (IOError (Some 28)), store);
  get_image_directory := reference_image_directory;
  image_file_name := reference_image_file_name;
|}.

Definition empty_world : World :=
  {| store := ∅; img_fs_lock := false; trace := [] |}.

(** *** Sample requests and worlds *)

(** The configuration the stand-in parser reads from the body ["X"]. *)
Definition sample_config : ArrheniusConfig :=
  {| run_id := "X"; colorbar := ("-1", "1") |}.

(** The dataset of run ["X"] is on disk, nothing else. *)
Definition dataset_cached : World :=
  {| store := <["output/X/X.nc" := RegularFile]>
                (<["output/X" := Directory]> ∅);
     img_fs_lock := false; trace := [] |}.

(** The dataset of run ["X"] and the three images of ["temperature"] (the
    average and two time segments) are on disk, the archive of the
    variable is not.  A file lies where [multi_model_data] serves its
    archive from. *)
Definition images_cached : World :=
  {| store :=
       <["output/X/X_temperature_[-1x1].zip" := RegularFile]>
         (<["output/X/X_[-1x1]/temperature/temperature_2_X.png" := RegularFile]>
            (<["output/X/X_[-1x1]/temperature/temperature_1_X.png"
                 := RegularFile]>
               (<["output/X/X_[-1x1]/temperature/temperature_0_X.png"
                    := RegularFile]>
                  (<["output/X/X_[-1x1]/temperature" := Directory]>
                     (store dataset_cached)))));
     img_fs_lock := false; trace := [] |}.

(** The same collaborators with a runner that is interrupted by a full
    disk after it has made the directory of the run. *)
Definition interrupted : Collaborators := {|
  OUTPUT_FULL_PATH := "output";
  from_json_string := reference_from_json_string;
  run_model := fun config store =>
    (Raise (IOError (Some 28)),
     <[path_join "output" [run_id config] := Directory]> store);
  save_from_dataset := reference_save_from_dataset 2;
  get_image_directory := reference_image_directory;
  image_file_name := reference_image_file_name;
|}.

(** The directory of run ["X"] is on disk, its dataset file is not. *)
Definition dataset_interrupted : World :=
  {| store := <["output/X" := Directory]> ∅;
     img_fs_lock := false; trace := [] |}.

(** The archive of ["temperature"] for run ["X"] is on disk, beside the
    dataset. *)
Definition archive_cached : World :=
  {| store := <["output/X/X_[-1x1]/X_temperature_[-1x1].zip" := ZipFile []]>
                (store dataset_cached);
     img_fs_lock := false; trace := [] |}.

End Api.

(** * Properties *)

(** ** data/statistics.py *)

Module StatisticsFacts.
Import Statistics.

Lemma ndarray_nested_ind (P : ndarray -> Prop) :
  (forall x, P (Scalar x)) ->
  (forall sub items, Forall P items -> P (Array sub items)) ->
  forall a, P a.
Proof.
  intros Hscalar Harray. fix IH 1. intros [x | sub items].
  - apply Hscalar.
  - apply Harray. induction items as [| it items IHitems]; constructor.
    + apply IH.
    + exact IHitems.
Qed.

(** The loop of [sum_table] from any value of its two counters. *)
Lemma sum_table_loop_no_valid modifier items acc :
  Forall (fun it => sum_table modifier it = (PyInt 0, 0)) items ->
  fold_left
    (fun acc subarray =>
       let '(total, num_valid_elems) := acc in
       let '(sub_total, sub_valid_cells) := sum_table modifier subarray in
       (py_add total sub_total, num_valid_elems + sub_valid_cells))
    items (PyInt 0, acc) = (PyInt 0, acc).
Proof.
  induction 1 as [| it items Hit _ IH]; simpl; [reflexivity |].
  rewrite Hit. simpl. replace (acc + 0) with acc by lia. exact IH.
Qed.

Lemma sum_table_no_valid modifier a :
  no_valid_elements a = true -> sum_table modifier a = (PyInt 0, 0).
Proof.
  induction a as [x | sub items IH] using ndarray_nested_ind; simpl; intros Hnan.
  - rewrite Hnan. reflexivity.
  - apply sum_table_loop_no_valid.
    rewrite forallb_forall in Hnan. rewrite Forall_forall in IH |- *.
    intros it Hin. apply IH; [exact Hin |]. apply Hnan.
    apply list_elem_of_In. exact Hin.
Qed.

(** C10: for every array without a valid element (all its elements are
    nan, or it has none), [mean] and [variance] return nan: the division of
    the int 0 by the int 0 raises [ZeroDivisionError], which both catch. *)
Theorem mean_variance_nan_without_valid data :
  no_valid_elements data = true ->
  mean data = Ok (PyFloat PrimFloat.nan) /\
  variance data = Ok (PyFloat PrimFloat.nan).
Proof.
  intros Hnan. unfold mean, variance.
  rewrite !(sum_table_no_valid _ _ Hnan). split; reflexivity.
Qed.


Lemma sum_table_loop_count modifier items :
  Forall (counted modifier) items ->
  forall total n,
    (fold_left
       (fun acc subarray =>
          let '(total, num_valid_elems) := acc in
          let '(sub_total, sub_valid_cells) := sum_table modifier subarray in
          (py_add total sub_total, num_valid_elems + sub_valid_cells))
       items (total, n)).2
    = n + fold_right (fun it k => valid_count it + k) 0 items.
Proof.
  induction 1 as [| it items (Hcount & _ & _) _ IH]; intros total n; simpl.
  - lia.
  - destruct (sum_table modifier it) as [sub_total sub_valid] eqn:Hsum.
    simpl in Hcount. rewrite IH. lia.
Qed.

Lemma valid_count_items_nonneg modifier items :
  Forall (counted modifier) items ->
  0 <= fold_right (fun it k => valid_count it + k) 0 items.
Proof.
  induction 1 as [| it items (_ & Hpos & _) _ IH]; simpl; lia.
Qed.

Lemma sum_table_loop_zero modifier items :
  Forall (counted modifier) items ->
  fold_right (fun it k => valid_count it + k) 0 items = 0 ->
  forall n,
    (fold_left
       (fun acc subarray =>
          let '(total, num_valid_elems) := acc in
          let '(sub_total, sub_valid_cells) := sum_table modifier subarray in
          (py_add total sub_total, num_valid_elems + sub_valid_cells))
       items (PyInt 0, n)).1 = PyInt 0.
Proof.
  induction 1 as [| it items (Hcount & Hpos & Hzero) Hitems IH];
    simpl; intros Hsum n; [reflexivity |].
  pose proof (valid_count_items_nonneg _ _ Hitems) as Hrest.
  destruct (sum_table modifier it) as [sub_total sub_valid] eqn:Hit.
  simpl in Hzero. rewrite Hzero by lia. simpl. apply IH. lia.
Qed.

Lemma sum_table_counted modifier a : counted modifier a.
Proof.
  induction a as [x | sub items IH] using ndarray_nested_ind.
  - unfold counted. simpl. destruct (PrimFloat.is_nan x); simpl; repeat split; lia.
  - unfold counted. cbn [sum_table valid_count]. split; [| split].
    + rewrite (sum_table_loop_count _ _ IH). lia.
    + exact (valid_count_items_nonneg _ _ IH).
    + intros Hzero. exact (sum_table_loop_zero _ _ IH Hzero 0).
Qed.

(** The quotient both [mean] and [variance] return. *)
Lemma quotient_of_valid modifier a :
  nan_on_zero_division
    (truediv (sum_table modifier a).1 (PyInt (sum_table modifier a).2))
  = Ok (PyFloat
          (if valid_count a =? 0 then PrimFloat.nan
           else PrimFloat.div (to_float (sum_table modifier a).1)
                              (float_of_Z (valid_count a)))).
Proof.
  destruct (sum_table_counted modifier a) as (Hcount & _ & Hzero).
  rewrite Hcount. destruct (valid_count a =? 0) eqn:Hn.
  - apply Z.eqb_eq in Hn. rewrite Hzero by exact Hn. rewrite Hn. reflexivity.
  - unfold truediv. destruct (sum_table modifier a).1; [rewrite Hn |]; reflexivity.
Qed.

(** [mean] never raises. *)
Lemma mean_returns a : exists v, mean a = Ok (PyFloat v).
Proof.
  eexists. rewrite <- (quotient_of_valid (fun x => PyFloat x) a). unfold mean.
  destruct (sum_table (fun x => PyFloat x) a); reflexivity.
Qed.


(** *** Sums of float64 and the sign of zero *)

Lemma zero_Prim2SF x : zero x <-> exists s, Prim2SF x = S754_zero s.
Proof.
  split.
  - intros [-> | ->]; eexists; reflexivity.
  - intros [s Hs]. rewrite <- (SF2Prim_Prim2SF x), Hs.
    destruct s; [right | left]; reflexivity.
Qed.

Lemma same_number_trans x y z :
  same_number x y -> same_number y z -> same_number x z.
Proof.
  intros [-> | [Hx Hy]] [<- | [Hy' Hz]]; try (left; reflexivity);
    right; split; assumption.
Qed.

(** Adding 0.0 changes nothing but the sign of a zero. *)
Lemma add_zero_same_number t : same_number (t + 0)%float t.
Proof.
  destruct (Prim2SF t) as [s | s | | s m e] eqn:Ht.
  - right. split; apply zero_Prim2SF; [| eauto].
    rewrite FloatAxioms.add_spec, Ht. destruct s; eexists; reflexivity.
  - left. apply Prim2SF_inj. rewrite FloatAxioms.add_spec, Ht. reflexivity.
  - left. apply Prim2SF_inj. rewrite FloatAxioms.add_spec, Ht. reflexivity.
  - left. apply Prim2SF_inj. rewrite FloatAxioms.add_spec, Ht. reflexivity.
Qed.

Lemma add_same_number t t' x :
  same_number t t' -> same_number (t + x)%float (t' + x)%float.
Proof.
  intros [-> | [Ht Ht']]; [left; reflexivity |].
  apply zero_Prim2SF in Ht as [s Hs]. apply zero_Prim2SF in Ht' as [s' Hs'].
  destruct (Prim2SF x) as [sx | sx | | sx m e] eqn:Hx.
  - right. split; apply zero_Prim2SF;
      rewrite FloatAxioms.add_spec, ?Hs, ?Hs', Hx.
    + destruct s, sx; eexists; reflexivity.
    + destruct s', sx; eexists; reflexivity.
  - left. apply Prim2SF_inj. rewrite !FloatAxioms.add_spec, Hs, Hs', Hx.
    reflexivity.
  - left. apply Prim2SF_inj. rewrite !FloatAxioms.add_spec, Hs, Hs', Hx.
    reflexivity.
  - left. apply Prim2SF_inj. rewrite !FloatAxioms.add_spec, Hs, Hs', Hx.
    reflexivity.
Qed.

Lemma div_same_number t t' n :
  same_number t t' -> same_number (t / n)%float (t' / n)%float.
Proof.
  intros [-> | [Ht Ht']]; [left; reflexivity |].
  apply zero_Prim2SF in Ht as [s Hs]. apply zero_Prim2SF in Ht' as [s' Hs'].
  destruct (Prim2SF n) as [sn | sn | | sn m e] eqn:Hn.
  - left. apply Prim2SF_inj. rewrite !FloatAxioms.div_spec, Hs, Hs', Hn.
    reflexivity.
  - right. split; apply zero_Prim2SF;
      rewrite FloatAxioms.div_spec, ?Hs, ?Hs', Hn; eexists; reflexivity.
  - left. apply Prim2SF_inj. rewrite !FloatAxioms.div_spec, Hs, Hs', Hn.
    reflexivity.
  - right. split; apply zero_Prim2SF;
      rewrite FloatAxioms.div_spec, ?Hs, ?Hs', Hn; eexists; reflexivity.
Qed.

(** The running sum that adds 0 for every nan is, up to the sign of a zero,
    the sum of the valid numbers alone. *)
Lemma float_sum_skipping_nan f xs : forall acc acc',
  same_number acc acc' ->
  same_number (fold_left PrimFloat.add (map (nan_as_zero f) xs) acc)
              (fold_left PrimFloat.add (map f (valid_values xs)) acc').
Proof.
  induction xs as [| x xs IH]; intros acc acc' Hacc; [exact Hacc |].
  cbn [map fold_left valid_values List.filter]. unfold valid, nan_as_zero at 2.
  destruct (PrimFloat.is_nan x); cbn [negb map fold_left]; apply IH.
  - exact (same_number_trans _ _ _ (add_zero_same_number acc) Hacc).
  - apply add_same_number. exact Hacc.
Qed.

Lemma mean_skipping_nan_same_number f xs :
  same_number (mean_skipping_nan f xs)
              (mean_of_values (map f (valid_values xs))).
Proof.
  unfold mean_skipping_nan, mean_of_values.
  pose proof (float_sum_skipping_nan f xs 0 0 (or_introl eq_refl)) as Hsum.
  destruct (valid_values xs) as [| v vs]; [left; reflexivity |].
  cbn [map]. cbn [length]. rewrite length_map.
  apply div_same_number. exact Hsum.
Qed.

(** *** [sum_table] on a 1-dimensional array *)

Lemma sum_table_row_loop f xs : forall total acc (k : nat),
  (total = PyInt 0 /\ acc = 0%float /\ k = 0%nat) \/
  (total = PyFloat acc /\ (0 < k)%nat) ->
  fold_left
    (fun acc subarray =>
       let '(total, num_valid_elems) := acc in
       let '(sub_total, sub_valid_cells) :=
         sum_table (fun x => PyFloat (f x)) subarray in
       (py_add total sub_total, num_valid_elems + sub_valid_cells))
    (map Scalar xs) (total, Z.of_nat k)
  = (match (k + length (valid_values xs))%nat with
     | O => PyInt 0
     | S _ => PyFloat (fold_left PrimFloat.add (map (nan_as_zero f) xs) acc)
     end,
     Z.of_nat (k + length (valid_values xs))).
Proof.
  induction xs as [| x xs IH]; intros total acc k Hinv.
  - cbn [map fold_left valid_values List.filter length]. rewrite Nat.add_0_r.
    destruct Hinv as [(-> & -> & ->) | (-> & Hk)]; [reflexivity |].
    destruct k; [lia | reflexivity].
  - cbn [map fold_left valid_values List.filter sum_table].
    unfold valid, nan_as_zero at 2.
    destruct (PrimFloat.is_nan x) eqn:Hnan; cbn [negb length].
    + replace (Z.of_nat k + 0) with (Z.of_nat k) by lia.
      destruct Hinv as [(-> & -> & ->) | (-> & Hk)].
      * exact (IH (PyInt 0) 0%float 0%nat (or_introl (conj eq_refl (conj eq_refl eq_refl)))).
      * exact (IH (PyFloat (acc + 0)) (acc + 0)%float k
                  (or_intror (conj eq_refl Hk))).
    + replace (Z.of_nat k + 1) with (Z.of_nat (S k)) by lia.
      rewrite !Nat.add_succ_r.
      destruct Hinv as [(-> & -> & ->) | (-> & Hk)].
      * exact (IH (PyFloat (0 + f x)) (0 + f x)%float 1%nat
                  (or_intror (conj eq_refl (Nat.lt_0_succ 0)))).
      * exact (IH (PyFloat (acc + f x)) (acc + f x)%float (S k)
                  (or_intror (conj eq_refl (Nat.lt_0_succ k)))).
Qed.

Lemma sum_table_row f xs :
  sum_table (fun x => PyFloat (f x)) (row xs)
  = (match valid_values xs with
     | [] => PyInt 0
     | _ => PyFloat (float_sum (map (nan_as_zero f) xs))
     end,
     Z.of_nat (length (valid_values xs))).
Proof.
  unfold row. cbn [sum_table]. change 0 with (Z.of_nat 0) at 2.
  rewrite (sum_table_row_loop f xs (PyInt 0) 0%float 0%nat
             (or_introl (conj eq_refl (conj eq_refl eq_refl)))).
  cbn [Nat.add]. destruct (valid_values xs); reflexivity.
Qed.

Lemma quotient_row f xs :
  (let '(total, num_valid_cells) := sum_table (fun x => PyFloat (f x)) (row xs) in
   nan_on_zero_division (truediv total (PyInt num_valid_cells)))
  = Ok (PyFloat (mean_skipping_nan f xs)).
Proof.
  rewrite sum_table_row. unfold mean_skipping_nan.
  destruct (valid_values xs) as [| v vs]; reflexivity.
Qed.

(** On a 1-dimensional array [mean] is the mean of the valid elements. *)
Lemma mean_row xs :
  mean (row xs) = Ok (PyFloat (mean_skipping_nan (fun x => x) xs)).
Proof. exact (quotient_row (fun x => x) xs). Qed.


Lemma mapM_pyresult {A B} (f : A -> pyresult B) (P : A -> B -> Prop) l :
  (forall x, x ∈ l -> exists y, f x = Ok y /\ P x y) ->
  exists ys, mapM f l = Ok ys /\ Forall2 P l ys.
Proof.
  induction l as [| x l IH]; intros Hall.
  - exists []. split; [reflexivity | constructor].
  - destruct (Hall x) as (y & Hy & HP); [left |].
    destruct IH as (ys & Hys & Hfor).
    { intros x' Hin. apply Hall. right. exact Hin. }
    exists (y :: ys). split; [| constructor; assumption].
    simpl. rewrite Hy. simpl. rewrite Hys. reflexivity.
Qed.

Lemma lookup_map {A B} (f : A -> B) (l : list A) (i : nat) :
  map f l !! i = f <$> l !! i.
Proof.
  revert i. induction l as [| x l IH]; intros [| i]; simpl; auto.
Qed.

Lemma wf_item sub items i it :
  wf (Array sub items) = true -> items !! i = Some it ->
  wf it = true /\ shape it = sub.
Proof.
  simpl. rewrite forallb_forall. intros Hwf Hit.
  specialize (Hwf it). rewrite andb_true_iff, bool_decide_eq_true in Hwf.
  apply Hwf. apply list_elem_of_In. eapply list_elem_of_lookup_2. exact Hit.
Qed.

(** A well-formed 1-dimensional array is a row of numbers. *)
Lemma wf_row a n :
  wf a = true -> shape a = [n] -> exists xs, a = row xs /\ length xs = n.
Proof.
  destruct a as [x | sub items]; [discriminate |].
  intros Hwf Hshape. simpl in Hshape. injection Hshape as Hlen ->.
  assert (Hitems : exists xs, items = map Scalar xs).
  { clear Hlen. induction items as [| it items IH]; [exists []; reflexivity |].
    destruct (wf_item [] (it :: items) 0 it Hwf eq_refl) as [_ Hit].
    destruct it as [x | sub' items']; [| discriminate].
    destruct IH as [xs ->].
    { simpl in Hwf |- *. exact Hwf. }
    exists (x :: xs). reflexivity. }
  destruct Hitems as [xs ->]. exists xs. split; [reflexivity |].
  rewrite length_map in Hlen. exact Hlen.
Qed.

(** [data[time_seg, lat_band, :]] of a well-formed 3-dimensional array: a
    row of [lon] numbers. *)
Lemma slice_row data time lat lon i j by_time data_slice :
  wf data = true -> shape data = [time; lat; lon] ->
  item data j = Ok by_time -> item by_time i = Ok data_slice ->
  exists xs, data_slice = row xs /\ length xs = lon.
Proof.
  intros Hwf Hshape Hbt Hsl. destruct data as [x | sub items]; [discriminate |].
  simpl in Hshape. injection Hshape as _ ->.
  simpl in Hbt. destruct (items !! j) as [bt |] eqn:Hj; [| discriminate].
  injection Hbt as ->.
  destruct (wf_item _ _ _ _ Hwf Hj) as [Hwf' Hshape'].
  destruct by_time as [x | sub' items']; [discriminate |].
  simpl in Hshape'. injection Hshape' as _ ->.
  simpl in Hsl. destruct (items' !! i) as [sl |] eqn:Hi; [| discriminate].
  injection Hsl as ->.
  destruct (wf_item _ _ _ _ Hwf' Hi) as [Hwf'' Hshape''].
  destruct data_slice as [x | sub'' items'']; [discriminate |].
  simpl in Hshape''. injection Hshape'' as Hlen ->.
  subst lon. apply (wf_row (Array [] items'') (length items'') Hwf'' eq_refl).
Qed.

(** [data[time_seg, lat_band, :]] of a well-formed 3-dimensional array. *)
Lemma slice_exists data time lat lon i j :
  wf data = true -> shape data = [time; lat; lon] ->
  (i < lat)%nat -> (j < time)%nat ->
  exists by_time data_slice,
    item data j = Ok by_time /\ item by_time i = Ok data_slice.
Proof.
  intros Hwf Hshape Hi Hj. destruct data as [x | sub items]; [discriminate |].
  simpl in Hshape. injection Hshape as Hlen Hsub.
  destruct (lookup_lt_is_Some_2 items j) as [by_time Hbt]; [lia |].
  destruct (wf_item _ _ _ _ Hwf Hbt) as [_ Hsh]. subst sub.
  destruct by_time as [x | sub' items']; [discriminate |].
  simpl in Hsh. injection Hsh as Hlen' _.
  destruct (lookup_lt_is_Some_2 items' i) as [data_slice Hsl]; [lia |].
  exists (Array sub' items'), data_slice. simpl. rewrite Hbt, Hsl. split; reflexivity.
Qed.


Lemma convert_3d_row data time lat lon i :
  wf data = true -> shape data = [time; lat; lon] -> (i < lat)%nat ->
  exists row,
    mapM (fun time_seg =>
            by_time ← item data time_seg;
            data_slice ← item by_time i;
            mean data_slice) (seq 0 time) = Ok row /\
    row_of data time i row.
Proof.
  intros Hwf Hshape Hi.
  destruct (mapM_pyresult
              (fun time_seg =>
                 by_time ← item data time_seg;
                 data_slice ← item by_time i;
                 mean data_slice)
              (fun j v => exists by_time data_slice x,
                   item data j = Ok by_time /\ item by_time i = Ok data_slice /\
                   mean data_slice = Ok (PyFloat x) /\ v = PyFloat x)
              (seq 0 time)) as (row & Hrow & Hall).
  { intros j Hj. apply elem_of_seq in Hj.
    destruct (slice_exists data time lat lon i j) as (bt & sl & Hbt & Hsl);
      [assumption | assumption | lia | lia |].
    destruct (mean_returns sl) as [x Hx].
    exists (PyFloat x). split.
    - rewrite Hbt. simpl. rewrite Hsl. simpl. exact Hx.
    - exists bt, sl, x. auto. }
  exists row. split; [exact Hrow |]. split.
  - rewrite <- (Forall2_length _ _ _ Hall). apply length_seq.
  - intros j Hj.
    destruct (Forall2_lookup_l _ _ _ j j Hall)
      as (v & Hv & bt & sl & x & Hbt & Hsl & Hx & ->).
    { apply lookup_seq_lt. exact Hj. }
    exists bt, sl, x. auto.
Qed.

Lemma convert_3d_table data time lat lon :
  wf data = true -> shape data = [time; lat; lon] ->
  exists rows,
    convert_3d data = Ok (np_array rows) /\
    length rows = lat /\
    forall i, (i < lat)%nat ->
      exists row, rows !! i = Some row /\ row_of data time i row.
Proof.
  intros Hwf Hshape. unfold convert_3d. rewrite Hshape. simpl nth.
  destruct (mapM_pyresult
              (fun lat_band =>
                 mapM (fun time_seg =>
                         by_time ← item data time_seg;
                         data_slice ← item by_time lat_band;
                         mean data_slice) (seq 0 time))
              (row_of data time) (seq 0 lat)) as (rows & Hrows & Hall).
  { intros i Hi. apply elem_of_seq in Hi.
    apply (convert_3d_row data time lat lon); [assumption | assumption | lia]. }
  exists rows. rewrite Hrows. split; [reflexivity |]. split.
  - rewrite <- (Forall2_length _ _ _ Hall). apply length_seq.
  - intros i Hi.
    destruct (Forall2_lookup_l _ _ _ i i Hall) as (row & Hrow & Hof).
    { apply lookup_seq_lt. exact Hi. }
    exists row. auto.
Qed.

Lemma convert_grid_data_to_table_3d data :
  ndim data = 3%nat -> convert_grid_data_to_table data = convert_3d data.
Proof.
  intros Hndim. destruct data as [x | sub items]; [discriminate |].
  cbn [convert_grid_data_to_table]. rewrite Hndim. reflexivity.
Qed.

Lemma convert_grid_data_to_table_2d data :
  ndim data = 2%nat -> convert_grid_data_to_table data = Ok data.
Proof.
  intros Hndim. destruct data as [x | sub items]; [discriminate |].
  cbn [convert_grid_data_to_table]. rewrite Hndim. reflexivity.
Qed.

(** C9 (amended): [convert_grid_data_to_table] returns a 2-dimensional
    array unchanged; for a 3-dimensional array of shape (time, lat, lon)
    with at least one latitude band it returns an array of shape
    (lat, time) whose entry (i, j) is the mean of the valid elements of
    [data[j, i, :]], the [lon] numbers [xs]: it is exactly the float64
    quotient of the running sum of [xs], to which a nan adds 0, by the
    number of valid elements, which is the mean of the valid elements alone
    up to the sign of a zero, and nan when there is no valid element; with
    no latitude band the result is the empty 1-dimensional array. *)
Theorem convert_grid_data_to_table_correct data :
  wf data = true ->
  (ndim data = 2%nat -> convert_grid_data_to_table data = Ok data) /\
  (forall time lat lon,
      shape data = [time; lat; lon] ->
      (lat = 0%nat -> convert_grid_data_to_table data = Ok (Array [] [])) /\
      ((0 < lat)%nat ->
       exists table,
         convert_grid_data_to_table data = Ok table /\
         shape table = [lat; time] /\
         forall i j, (i < lat)%nat -> (j < time)%nat ->
           exists by_time xs m,
             item data j = Ok by_time /\ item by_time i = Ok (row xs) /\
             length xs = lon /\
             cell table i j = Ok (Scalar m) /\
             m = mean_skipping_nan (fun x => x) xs /\
             same_number m (mean_of_values (valid_values xs)) /\
             (valid_values xs = [] -> m = PrimFloat.nan))).
Proof.
  intros Hwf. split; [apply convert_grid_data_to_table_2d |].
  intros time lat lon Hshape.
  assert (Hndim : ndim data = 3%nat) by (unfold ndim; rewrite Hshape; reflexivity).
  rewrite (convert_grid_data_to_table_3d _ Hndim).
  destruct (convert_3d_table data time lat lon Hwf Hshape)
    as (rows & Hconv & Hlen & Hrows).
  split.
  - intros ->. rewrite Hconv. destruct rows; [reflexivity | discriminate].
  - intros Hlat. exists (np_array rows). split; [exact Hconv |]. split.
    + destruct (Hrows 0%nat Hlat) as (row & Hrow & Hrlen & _).
      destruct rows as [| row0 rows]; [discriminate |].
      simpl in Hrow. injection Hrow as ->. simpl in Hlen |- *.
      rewrite length_map. congruence.
    + intros i j Hi Hj.
      destruct (Hrows i Hi) as (row & Hrow & _ & Hcells).
      destruct (Hcells j Hj) as (bt & sl & v & Hbt & Hsl & Hmean & Hcell).
      destruct (slice_row data time lat lon i j bt sl Hwf Hshape Hbt Hsl)
        as (xs & -> & Hlon).
      rewrite mean_row in Hmean. injection Hmean as <-.
      exists bt, xs, (mean_skipping_nan (fun x => x) xs).
      split; [exact Hbt |]. split; [exact Hsl |]. split; [exact Hlon |].
      split; [| split; [reflexivity | split]].
      * unfold cell, np_array. simpl.
        rewrite lookup_map, Hrow. simpl.
        rewrite lookup_map, Hcell. reflexivity.
      * pose proof (mean_skipping_nan_same_number (fun x => x) xs) as Hsame.
        rewrite map_id in Hsame. exact Hsame.
      * intros Hnone. unfold mean_skipping_nan. rewrite Hnone. reflexivity.
Qed.

(** C10 at an all-nan row and at an empty one. *)
Lemma mean_variance_nan_without_valid_witness :
  (mean (row [nan; nan]%float) = Ok (PyFloat PrimFloat.nan) /\
   variance (row [nan; nan]%float) = Ok (PyFloat PrimFloat.nan)) /\
  (mean (row []) = Ok (PyFloat PrimFloat.nan) /\
   variance (row []) = Ok (PyFloat PrimFloat.nan)).
Proof.
  split.
  - exact (mean_variance_nan_without_valid (row [nan; nan]%float) eq_refl).
  - exact (mean_variance_nan_without_valid (row []) eq_refl).
Defined.

(** C9 as stated fails on a grid without latitude bands: the shape of the
    result is (0,), not (0, 2). *)
Lemma convert_grid_data_to_table_without_bands :
  wf grid_without_bands = true /\
  shape grid_without_bands = [2; 0; 3]%nat /\
  exists table,
    convert_grid_data_to_table grid_without_bands = Ok table /\
    shape table = [0]%nat /\
    shape table <> [0; 2]%nat.
Proof.
  split; [reflexivity |]. split; [reflexivity |].
  exists (Array [] []). split; [reflexivity |]. split; [reflexivity |].
  discriminate.
Qed.

(** C9 (amended) at the sample table and the sample grid: band 1 of time
    segment 0 holds no valid element, and band 0 of time segment 1 holds 4,
    nan and 6, whose mean is 5. *)
Lemma convert_grid_data_to_table_correct_witness :
  convert_grid_data_to_table sample_table = Ok sample_table /\
  exists table,
    convert_grid_data_to_table sample_grid = Ok table /\
    shape table = [2; 2]%nat /\
    cell table 1 0 = Ok (Scalar PrimFloat.nan) /\
    cell table 0 1 = Ok (Scalar 5%float) /\
    mean_of_values (valid_values [4; nan; 6]%float) = 5%float.
Proof.
  split.
  - exact (proj1 (convert_grid_data_to_table_correct sample_table eq_refl)
             eq_refl).
  - destruct (proj2 (convert_grid_data_to_table_correct sample_grid eq_refl)
                2%nat 2%nat 3%nat eq_refl) as [_ Hbands].
    destruct (Hbands (Nat.lt_0_succ 1)) as (table & Hconv & Hshape & Hcells).
    exists table. split; [exact Hconv |]. split; [exact Hshape |].
    split; [| split; [| reflexivity]].
    + destruct (Hcells 1%nat 0%nat (Nat.lt_succ_diag_r 1) (Nat.lt_0_succ 1))
        as (by_time & xs & m & Hbt & Hsl & _ & Hcell & -> & _).
      injection Hbt as <-.
      destruct xs as [| a [| b [| c [| d xs]]]]; try discriminate Hsl.
      injection Hsl as <- <- <-. exact Hcell.
    + destruct (Hcells 0%nat 1%nat (Nat.lt_0_succ 1) (Nat.lt_succ_diag_r 1))
        as (by_time & xs & m & Hbt & Hsl & _ & Hcell & -> & _).
      injection Hbt as <-.
      destruct xs as [| a [| b [| c [| d xs]]]]; try discriminate Hsl.
      injection Hsl as <- <- <-. exact Hcell.
Defined.

End StatisticsFacts.

(** ** api.py *)

Module ApiFacts.
Import Api.
Local Open Scope string_scope.
Local Open Scope list_scope.

Section Ensure.

Context `{Collaborators}.

Lemma runs_snoc w ev :
  length (List.filter is_run (trace w ++ [ev]))
  = (runs w + (if is_run ev then 1 else 0))%nat.
Proof.
  unfold runs. rewrite List.filter_app, length_app. simpl.
  destruct (is_run ev); reflexivity.
Qed.

Lemma model_run_runs config w :
  runs (model_run config w).2 = S (runs w).
Proof.
  unfold model_run. destruct (run_model config (store w)) as [r store'].
  unfold runs at 1. simpl. rewrite runs_snoc. simpl. lia.
Qed.

Lemma model_run_store config w :
  store (model_run config w).2 = (run_model config (store w)).2.
Proof.
  unfold model_run. destruct (run_model config (store w)); reflexivity.
Qed.

Lemma model_run_result config w :
  (model_run config w).1 = (run_model config (store w)).1.
Proof.
  unfold model_run. destruct (run_model config (store w)); reflexivity.
Qed.

(** A call that finds the dataset returns at once. *)
Lemma ensure_model_results_hit config w :
  dataset_missing config w = false ->
  ensure_model_results config w
  = Some (Ok (dataset_parent_of config, false), w).
Proof.
  intros Hhit. unfold ensure_model_results, mbind, M_bind, look.
  rewrite Hhit. reflexivity.
Qed.

(** A call that misses runs the model, and returns when the run does. *)
Lemma ensure_model_results_miss config w :
  dataset_missing config w = true ->
  ensure_model_results config w
  = match model_run config w with
    | (Ok _, w') => Some (Ok (dataset_parent_of config, true), w')
    | (Raise e, w') => Some (Raise e, w')
    end.
Proof.
  intros Hmiss. unfold ensure_model_results, mbind, M_bind, look, total.
  rewrite Hmiss. destruct (model_run config w) as [[[] | e] w']; reflexivity.
Qed.


End Ensure.



Section Concurrent.

Context `{Collaborators}.
























End Concurrent.



(** C3: on a first request for the archive of a variable,
    [multi_model_data] renders the images and builds the archive over the
    image directory, at [<dataset parent>/<run id>_<scale>/<name>.zip]; it
    then serves [<dataset parent>/<name>.zip], where no file is, so the
    request ends in werkzeug's 404. *)
Theorem multi_model_data_serves_other_path :
  exists w',
    @multi_model_data (reference 2) "temperature" "X" empty_world
    = Some (Raise NotFound, w') /\
    store w' !! "output/X/X_[-1x1]/X_temperature_[-1x1].zip"
    = Some (ZipFile ["output/X/X_[-1x1]/temperature/temperature_1_X.png";
                     "output/X/X_[-1x1]/temperature/temperature_2_X.png";
                     "output/X/X_[-1x1]/temperature/temperature_0_X.png"]) /\
    is_file (store w') "output/X/X_temperature_[-1x1].zip" = false /\
    serve (@multi_model_data (reference 2) "temperature" "X") empty_world
    = Some ({| body := DefaultPage; status := 404 |}, w').
Proof. eexists. repeat split; vm_compute; reflexivity. Qed.

(** C4: when the renderer raises (here on a full disk), or when [int]
    rejects the time segment, [single_model_data] exits with [img_fs_lock]
    still held, and the next request for an image waits forever. *)
Theorem single_model_data_error_keeps_lock :
  (exists w',
      @single_model_data disk_full "temperature" "2" "X" empty_world
      = Some (Raise (IOError (Some 28)), w') /\
      img_fs_lock w' = true /\
      @single_model_data disk_full "temperature" "2" "X" w' = None) /\
  (exists w',
      @single_model_data (reference 2) "temperature" "abc" "X" empty_world
      = Some (Raise ValueError, w') /\
      img_fs_lock w' = true).
Proof. split; eexists; repeat split; vm_compute; reflexivity. Qed.

(** C5: [multi_model_data] checks for the archive, renders the images and
    builds the archive while [img_fs_lock] is not held. *)
Theorem multi_model_data_without_guard :
  exists r w',
    @multi_model_data (reference 2) "temperature" "X" empty_world
    = Some (r, w') /\
    trace w'
    = [EvRunModel sample_config;
       EvArchiveCheck "output/X/X_[-1x1]/X_temperature_[-1x1].zip" false;
       EvImageOutput "output/X" "temperature" None false;
       EvMakeArchive "output/X/X_[-1x1]/X_temperature_[-1x1]"
                     "output/X/X_[-1x1]/temperature" false].
Proof. eexists. eexists. split; vm_compute; reflexivity. Qed.

(** C7: an [IOError] with errno 28 is answered with status 413 and the
    page about insufficient space; every other [IOError] with status 500
    and the page about failed disk IO, a different response; an error with
    no handler of its own is answered with status 500 and a page that is
    the same whatever the error; and a request whose handler raises is
    answered by these handlers. *)
Theorem error_classification :
  handle_exception (IOError (Some 28))
  = {| body := Html (error_template "Insufficient Space"
                                    insufficient_space_msg);
       status := 413 |} /\
  (forall errno, errno <> Some 28 ->
     handle_exception (IOError errno)
     = {| body := Html (error_template "Failed Disk IO" failed_disk_io_msg);
          status := 500 |} /\
     handle_exception (IOError errno) <> handle_exception (IOError (Some 28))) /\
  (forall err, unhandled err = true ->
     handle_exception err = handle_failure err /\
     status (handle_exception err) = 500 /\
     forall err', handle_failure err = handle_failure err') /\
  (forall handler w err w',
     handler w = Some (Raise err, w') ->
     serve handler w = Some (handle_exception err, w')).
Proof.
  split; [reflexivity |]. split; [| split].
  - intros errno Hne. simpl. unfold handle_enomem.
    rewrite bool_decide_eq_false_2 by exact Hne.
    rewrite bool_decide_eq_true_2 by reflexivity.
    split; [reflexivity | discriminate].
  - intros err Hun. destruct err; try discriminate; repeat split.
  - intros handler w err w' Hraise. unfold serve. rewrite Hraise. reflexivity.
Qed.

(** C7 at a full disk, a missing file, an [IOError] without errno and two
    unexpected errors. *)
Lemma error_classification_witness :
  status (handle_exception (IOError (Some 28))) = 413 /\
  status (handle_exception (IOError (Some 2))) = 500 /\
  status (handle_exception (IOError None)) = 500 /\
  handle_exception ZeroDivisionError = handle_exception (RuntimeError "boom").
Proof.
  destruct error_classification as (Hfull & Hio & Hother & _).
  split; [rewrite Hfull; reflexivity |].
  split; [rewrite (proj1 (Hio (Some 2) ltac:(discriminate))); reflexivity |].
  split; [rewrite (proj1 (Hio None ltac:(discriminate))); reflexivity |].
  destruct (Hother ZeroDivisionError eq_refl) as (-> & _ & Hconst).
  destruct (Hother (RuntimeError "boom") eq_refl) as (-> & _ & _).
  apply Hconst.
Defined.

Section Requests.

Context `{Collaborators}.

Lemma bind_returns {A B} (m : M A) (k : A -> M B) w b w' :
  (m ≫= k) w = Some (Ok b, w') ->
  exists a w1, m w = Some (Ok a, w1) /\ k a w1 = Some (Ok b, w').
Proof.
  unfold mbind, M_bind. destruct (m w) as [[[a | e] w1] |]; try discriminate.
  intros Hk. exists a, w1. split; [reflexivity | exact Hk].
Qed.

Lemma ret_returns {A} (a b : A) w w' :
  (mret a : M A) w = Some (Ok b, w') -> a = b /\ w = w'.
Proof. intros [= -> ->]. split; reflexivity. Qed.

Lemma lift_returns {A} (r : pyresult A) a w w' :
  lift r w = Some (Ok a, w') -> r = Ok a /\ w = w'.
Proof. intros [= -> ->]. split; reflexivity. Qed.

Lemma ensure_model_results_returns config w p created w1 :
  ensure_model_results config w = Some (Ok (p, created), w1) ->
  p = dataset_parent_of config /\ created = dataset_missing config w.
Proof.
  destruct (dataset_missing config w) eqn:Hmiss.
  - rewrite ensure_model_results_miss by exact Hmiss.
    destruct (model_run config w) as [[[] | e] w2]; intros [= <- <- <-].
    split; reflexivity.
  - rewrite ensure_model_results_hit by exact Hmiss.
    intros [= <- <- <-]. split; reflexivity.
Qed.

Lemma send_from_directory_returns directory filename w file w' :
  send_from_directory directory filename w = Some (Ok file, w') ->
  file = FileAt (path_join directory [filename]) /\ w' = w /\
  is_file (store w) (path_join directory [filename]) = true.
Proof.
  unfold send_from_directory.
  destruct (startswith_sep filename || bool_decide (filename = "..")
            || String.prefix "../" filename); [discriminate |].
  destruct (is_file (store w) (path_join directory [filename])) eqn:Hfile;
    [| discriminate].
  intros [= <- <-]. repeat split.
Qed.

(** The renderer call neither runs the model nor touches the lock, and it
    always comes back. *)
Lemma ensure_image_output_runs ds_parent var_name time_seg config w :
  exists r w',
    ensure_image_output ds_parent var_name time_seg config w = Some (r, w') /\
    runs w' = runs w /\ img_fs_lock w' = img_fs_lock w.
Proof.
  unfold ensure_image_output, mbind, M_bind, record, on_store. simpl.
  destruct (save_from_dataset ds_parent var_name time_seg config (store w))
    as [[created | e] store'] eqn:Hsave; simpl;
    eexists; eexists; (split; [reflexivity |]); simpl;
    unfold runs at 1; simpl; rewrite runs_snoc; simpl; split; (lia || reflexivity).
Qed.

Lemma scientific_dataset_status data w resp w' :
  scientific_dataset data w = Some (Ok resp, w') ->
  exists config,
    from_json_string data = Ok config /\
    status resp = (if dataset_missing config w then 201 else 200).
Proof.
  unfold scientific_dataset. intros Hrun.
  apply bind_returns in Hrun as (config & w0 & Hconfig & Hrun).
  apply lift_returns in Hconfig as [Hconfig <-].
  apply bind_returns in Hrun as ([parent created] & w1 & Hmodel & Hrun).
  apply bind_returns in Hrun as (file & w2 & _ & Hrun).
  apply ret_returns in Hrun as [<- _].
  apply ensure_model_results_returns in Hmodel as [_ ->].
  exists config. split; [exact Hconfig | reflexivity].
Qed.

Lemma single_model_data_status varname time_seg data w resp w' :
  single_model_data varname time_seg data w = Some (Ok resp, w') ->
  exists config w1 seg download_path img_created w2,
    from_json_string data = Ok config /\
    ensure_model_results config w
    = Some (Ok (dataset_parent_of config, dataset_missing config w), w1) /\
    int_of_str time_seg = Ok seg /\
    ensure_image_output (dataset_parent_of config) varname (Some seg) config
      (locked w1) = Some (Ok (download_path, img_created), w2) /\
    status resp
    = (if dataset_missing config w || img_created then 201 else 200).
Proof.
  unfold single_model_data. intros Hrun.
  apply bind_returns in Hrun as (config & w0 & Hconfig & Hrun).
  apply lift_returns in Hconfig as [Hconfig <-].
  apply bind_returns in Hrun as ([parent created] & w1 & Hmodel & Hrun).
  apply bind_returns in Hrun as ([] & wl & Hlock & Hrun).
  apply bind_returns in Hrun as (seg & w0 & Hseg & Hrun).
  apply lift_returns in Hseg as [Hseg <-].
  apply bind_returns in Hrun as ([download_path img_created] & w2 & Himg & Hrun).
  apply bind_returns in Hrun as ([] & w3 & _ & Hrun).
  apply bind_returns in Hrun as (file & w4 & _ & Hrun).
  apply ret_returns in Hrun as [<- _].
  pose proof (ensure_model_results_returns _ _ _ _ _ Hmodel) as [-> ->].
  unfold acquire in Hlock. destruct (img_fs_lock w1); [discriminate |].
  injection Hlock as <-.
  exists config, w1, seg, download_path, img_created, w2.
  repeat split; assumption.
Qed.

Lemma multi_model_data_status varname data w resp w' :
  multi_model_data varname data w = Some (Ok resp, w') ->
  exists config w1 img_created,
    from_json_string data = Ok config /\
    ensure_model_results config w
    = Some (Ok (dataset_parent_of config, dataset_missing config w), w1) /\
    let zip := path_join (dataset_parent_of config)
                 [scale_dir_name_of config; archive_name_of varname config]
               +:+ ".zip" in
    (is_file (store w1) zip = true -> img_created = false) /\
    (is_file (store w1) zip = false ->
     exists w1' archive_src w2,
       store w1' = store w1 /\
       ensure_image_output (dataset_parent_of config) varname None config w1'
       = Some (Ok (archive_src, img_created), w2)) /\
    status resp
    = (if dataset_missing config w || img_created then 201 else 200) /\
    body resp
    = FileAt (path_join (dataset_parent_of config)
                [archive_name_of varname config +:+ ".zip"]).
Proof.
  unfold multi_model_data. intros Hrun.
  apply bind_returns in Hrun as (config & w0 & Hconfig & Hrun).
  apply lift_returns in Hconfig as [Hconfig <-].
  apply bind_returns in Hrun as ([parent created] & w1 & Hmodel & Hrun).
  pose proof (ensure_model_results_returns _ _ _ _ _ Hmodel) as [-> ->].
  apply bind_returns in Hrun as ([] & w1' & Hrec & Hrun).
  apply bind_returns in Hrun as (present & w0 & Hlook & Hrun).
  injection Hlook as <- <-.
  apply bind_returns in Hrun as (img_created & w3 & Hmiss & Hrun).
  apply bind_returns in Hrun as (file & w4 & Hsend & Hrun).
  apply ret_returns in Hrun as [<- _].
  apply send_from_directory_returns in Hsend as (-> & _ & _).
  injection Hrec as <-. simpl in Hmiss.
  exists config, w1, img_created. split; [exact Hconfig |].
  split; [exact Hmodel |]. simpl. split; [| split; [| split; reflexivity]].
  - intros Hthere. rewrite Hthere in Hmiss. simpl in Hmiss.
    apply ret_returns in Hmiss as [<- _]. reflexivity.
  - intros Habsent. rewrite Habsent in Hmiss. simpl in Hmiss.
    apply bind_returns in Hmiss as ([archive_src created] & w2 & Himg & Hmiss).
    apply bind_returns in Hmiss as ([] & w5 & _ & Hmiss).
    apply bind_returns in Hmiss as (zipped & w6 & _ & Hmiss).
    apply ret_returns in Hmiss as [<- _].
    eexists; exists archive_src, w2. split; [| exact Himg]. reflexivity.
Qed.

End Requests.

(** C8 (amended): when an endpoint returns a file, its status is 201 if
    the dataset was absent and the model was run, or if the renderer
    reported a new image, and 200 otherwise; [multi_model_data] asks the
    renderer only when the archive is absent, and building the archive
    does not count by itself. *)
Theorem status_tells_dataset_or_image_created `{Collaborators} :
  (forall data w resp w',
      scientific_dataset data w = Some (Ok resp, w') ->
      exists config,
        from_json_string data = Ok config /\
        status resp = (if dataset_missing config w then 201 else 200)) /\
  (forall varname time_seg data w resp w',
      single_model_data varname time_seg data w = Some (Ok resp, w') ->
      exists config w1 seg download_path img_created w2,
        from_json_string data = Ok config /\
        ensure_model_results config w
        = Some (Ok (dataset_parent_of config, dataset_missing config w), w1) /\
        int_of_str time_seg = Ok seg /\
        ensure_image_output (dataset_parent_of config) varname (Some seg)
          config (locked w1) = Some (Ok (download_path, img_created), w2) /\
        status resp
        = (if dataset_missing config w || img_created then 201 else 200)) /\
  (forall varname data w resp w',
      multi_model_data varname data w = Some (Ok resp, w') ->
      exists config w1 img_created,
        from_json_string data = Ok config /\
        ensure_model_results config w
        = Some (Ok (dataset_parent_of config, dataset_missing config w), w1) /\
        let zip := path_join (dataset_parent_of config)
                     [scale_dir_name_of config; archive_name_of varname config]
                   +:+ ".zip" in
        (is_file (store w1) zip = true -> img_created = false) /\
        (is_file (store w1) zip = false ->
         exists w1' archive_src w2,
           store w1' = store w1 /\
           ensure_image_output (dataset_parent_of config) varname None config
             w1' = Some (Ok (archive_src, img_created), w2)) /\
        status resp
        = (if dataset_missing config w || img_created then 201 else 200)).
Proof.
  split; [exact scientific_dataset_status |].
  split; [exact single_model_data_status |].
  intros varname data w resp w' Hrun.
  destruct (multi_model_data_status _ _ _ _ _ Hrun)
    as (config & w1 & img_created & Hc & Hm & Hthere & Habsent & Hstatus & _).
  exists config, w1, img_created. repeat split; assumption.
Qed.

(** C8 as stated fails when dataset and images are cached and the
    archive is not: the archive is built during the request, and the
    status is 200. *)
Lemma new_archive_reported_as_cached :
  exists w',
    @multi_model_data (reference 2) "temperature" "X" images_cached
    = Some (Ok {| body := FileAt "output/X/X_temperature_[-1x1].zip";
                  status := 200 |}, w') /\
    is_file (store images_cached)
            "output/X/X_[-1x1]/X_temperature_[-1x1].zip" = false /\
    is_file (store w') "output/X/X_[-1x1]/X_temperature_[-1x1].zip" = true.
Proof. eexists. repeat split; vm_compute; reflexivity. Qed.

(** The dataset of run X is cached, the image of segment 1 is not: the
    response is marked as created. *)
Lemma status_tells_dataset_or_image_created_witness :
  exists resp w',
    @single_model_data (reference 2) "temperature" "1" "X" dataset_cached
    = Some (Ok resp, w') /\
    @dataset_missing (reference 2) sample_config dataset_cached = false /\
    status resp = 201.
Proof.
  eexists. eexists. split; [vm_compute; reflexivity |].
  split; [vm_compute; reflexivity |].
  destruct (proj1 (proj2 (@status_tells_dataset_or_image_created (reference 2)))
              "temperature" "1" "X" dataset_cached _ _ eq_refl)
    as (config & w1 & seg & download_path & img_created & w2
        & Hconfig & Hmodel & Hseg & Himg & Hstatus).
  injection Hconfig as <-. injection Hmodel as <-. injection Hseg as <-.
  vm_compute in Himg. injection Himg as _ <- _. exact Hstatus.
Defined.

Section Guard.

Context `{Collaborators}.

(** An exception out of [ensure_image_output] leaves [single_model_data]
    before the release. *)
Lemma single_model_data_raise_keeps_lock
    varname time_seg data w config created w1 seg e w2 :
  from_json_string data = Ok config ->
  ensure_model_results config w
  = Some (Ok (dataset_parent_of config, created), w1) ->
  img_fs_lock w1 = false ->
  int_of_str time_seg = Ok seg ->
  ensure_image_output (dataset_parent_of config) varname (Some seg) config
    (locked w1) = Some (Raise e, w2) ->
  single_model_data varname time_seg data w = Some (Raise e, w2) /\
  img_fs_lock w2 = true.
Proof.
  intros Hconfig Hmodel Hfree Hseg Himg. split.
  - unfold single_model_data, mbind, M_bind, lift.
    rewrite Hconfig, Hmodel. unfold acquire. rewrite Hfree, Hseg, Himg.
    reflexivity.
  - destruct (ensure_image_output_runs (dataset_parent_of config) varname
                (Some seg) config (locked w1)) as (r & w' & Hrun & _ & Hlock).
    rewrite Himg in Hrun. injection Hrun as _ <-. exact Hlock.
Qed.

Lemma without_guard_still {A} (m : M A) :
  (forall w r w', m w = Some (r, w') -> w' = w) -> without_guard m.
Proof.
  intros Hstill w r w' Hfree Hrun. rewrite (Hstill _ _ _ Hrun).
  split; [exact Hfree |]. exists []. rewrite app_nil_r. split; constructor.
Qed.

Lemma without_guard_bind {A B} (m : M A) (k : A -> M B) :
  without_guard m -> (forall a, without_guard (k a)) ->
  without_guard (m ≫= k).
Proof.
  intros Hm Hk w r w' Hfree. unfold mbind, M_bind.
  destruct (m w) as [[[a | e] w1] |] eqn:Hrun; [| | discriminate].
  - destruct (Hm _ _ _ Hfree Hrun) as (Hfree1 & evs1 & Htr1 & Hevs1).
    intros Hrest.
    destruct (Hk a _ _ _ Hfree1 Hrest) as (Hfree2 & evs2 & Htr2 & Hevs2).
    split; [exact Hfree2 |]. exists (evs1 ++ evs2).
    rewrite Htr2, Htr1, app_assoc. split; [reflexivity |].
    apply Forall_app. split; assumption.
  - intros [= <- <-]. exact (Hm _ _ _ Hfree Hrun).
Qed.

Lemma without_guard_record ev :
  guard_of (ev false) <> Some true -> without_guard (record ev).
Proof.
  intros Hev w r w' Hfree [= <- <-]. simpl. split; [exact Hfree |].
  exists [ev (img_fs_lock w)]. split; [reflexivity |].
  rewrite Hfree. constructor; [exact Hev | constructor].
Qed.

Lemma without_guard_on_store {A} (f : FS -> pyresult A * FS) :
  without_guard (on_store f).
Proof.
  intros w r w' Hfree. unfold on_store.
  destruct (f (store w)) as [r0 store']. intros [= <- <-]. simpl.
  split; [exact Hfree |]. exists []. rewrite app_nil_r. split; constructor.
Qed.

Lemma without_guard_ensure_model_results config :
  without_guard (ensure_model_results config).
Proof.
  unfold ensure_model_results. apply without_guard_bind.
  - apply without_guard_still. intros w r w' [= _ <-]. reflexivity.
  - intros [|].
    + apply without_guard_bind.
      * intros w r w' Hfree. unfold total, model_run.
        destruct (run_model config (store w)) as [r0 store'].
        intros [= <- <-]. simpl. split; [exact Hfree |].
        exists [EvRunModel config]. split; [reflexivity |].
        constructor; [discriminate | constructor].
      * intros _. apply without_guard_still. intros w r w' [= _ <-]. reflexivity.
    + apply without_guard_still. intros w r w' [= _ <-]. reflexivity.
Qed.

Lemma without_guard_ensure_image_output ds_parent var_name time_seg config :
  without_guard (ensure_image_output ds_parent var_name time_seg config).
Proof.
  unfold ensure_image_output. apply without_guard_bind.
  - apply without_guard_record. discriminate.
  - intros _. apply without_guard_bind; [apply without_guard_on_store |].
    intros created. apply without_guard_still.
    intros w r w' [= _ <-]. reflexivity.
Qed.

Lemma without_guard_send_from_directory directory filename :
  without_guard (send_from_directory directory filename).
Proof.
  apply without_guard_still. intros w r w'. unfold send_from_directory.
  repeat match goal with |- context [if ?b then _ else _] => destruct b end;
    intros [= _ <-]; reflexivity.
Qed.

(** [multi_model_data] never holds [img_fs_lock]: whatever it checks,
    renders or archives, it does so with the lock free. *)
Lemma multi_model_data_never_guarded varname data :
  without_guard (multi_model_data varname data).
Proof.
  unfold multi_model_data. apply without_guard_bind.
  { apply without_guard_still. intros w r w' [= _ <-]. reflexivity. }
  intros config. apply without_guard_bind.
  { apply without_guard_ensure_model_results. }
  intros [ds_parent model_created]. apply without_guard_bind.
  { apply without_guard_record. discriminate. }
  intros _. apply without_guard_bind.
  { apply without_guard_still. intros w r w' [= _ <-]. reflexivity. }
  intros present. apply without_guard_bind.
  { destruct present; simpl.
    - apply without_guard_still. intros w r w' [= _ <-]. reflexivity.
    - apply without_guard_bind; [apply without_guard_ensure_image_output |].
      intros [archive_src img_created]. apply without_guard_bind.
      { apply without_guard_record. discriminate. }
      intros _. apply without_guard_bind; [apply without_guard_on_store |].
      intros _. apply without_guard_still. intros w r w' [= _ <-]. reflexivity. }
  intros img_created. apply without_guard_bind.
  { apply without_guard_send_from_directory. }
  intros file. apply without_guard_still. intros w r w' [= _ <-]. reflexivity.
Qed.

End Guard.

(** C6: [ensure_image_output] always comes back without a model run, for
    any collaborators; with the renderer of the specification, a call on a
    dataset parent without dataset raises and leaves the store as it
    was. *)
Theorem ensure_image_output_needs_dataset :
  (forall `{Collaborators} ds_parent var_name time_seg config w,
      exists r w',
        ensure_image_output ds_parent var_name time_seg config w
        = Some (r, w') /\
        runs w' = runs w) /\
  (forall segments ds_parent var_name time_seg config w,
      is_file (store w) (path_join ds_parent [run_id config +:+ ".nc"]) = false ->
      exists w',
        @ensure_image_output (reference segments) ds_parent var_name time_seg
          config w = Some (Raise (IOError (Some 2)), w') /\
        store w' = store w /\ runs w' = runs w).
Proof.
  split.
  - intros C ds_parent var_name time_seg config w.
    destruct (ensure_image_output_runs ds_parent var_name time_seg config w)
      as (r & w' & Hrun & Hruns & _).
    exists r, w'. split; assumption.
  - intros segments ds_parent var_name time_seg config w Habsent.
    destruct (@ensure_image_output_runs (reference segments) ds_parent
                var_name time_seg config w) as (r & w' & Hrun & Hruns & _).
    exists w'. split; [| split; [| exact Hruns]].
    + rewrite Hrun. revert Hrun.
      unfold ensure_image_output, mbind, M_bind, record, on_store. simpl.
      unfold reference_save_from_dataset. rewrite Habsent.
      intros [= <- <-]. reflexivity.
    + revert Hrun.
      unfold ensure_image_output, mbind, M_bind, record, on_store. simpl.
      unfold reference_save_from_dataset. rewrite Habsent.
      intros [= <- <-]. reflexivity.
Qed.

(** C6 on an empty store. *)
Lemma ensure_image_output_needs_dataset_witness :
  exists w',
    @ensure_image_output (reference 2) "output/X" "temperature" (Some 1)
      sample_config empty_world = Some (Raise (IOError (Some 2)), w') /\
    store w' = ∅ /\ runs w' = 0%nat.
Proof.
  exact (proj2 ensure_image_output_needs_dataset 2%nat "output/X" "temperature"
           (Some 1) sample_config empty_world eq_refl).
Defined.

End ApiFacts.

(** * Further properties *)

(** ** Sums, means and deviations *)

Module StatisticsNumbers.
Import Statistics StatisticsFacts.
Local Open Scope Z_scope.












(** X3: [std_dev] of an array without a valid element is nan: the nan of
    [variance] goes through [sqrt] and nothing is raised. *)
Theorem std_dev_nan_without_valid data :
  no_valid_elements data = true -> std_dev data = Ok PrimFloat.nan.
Proof.
  intros Hnan. unfold std_dev, variance.
  rewrite (sum_table_no_valid _ _ Hnan). reflexivity.
Qed.

(** X3 at an all-nan row and at an empty one. *)
Lemma std_dev_nan_without_valid_witness :
  std_dev (row [nan; nan]%float) = Ok PrimFloat.nan /\
  std_dev (row []) = Ok PrimFloat.nan.
Proof.
  split.
  - exact (std_dev_nan_without_valid (row [nan; nan]%float) eq_refl).
  - exact (std_dev_nan_without_valid (row []) eq_refl).
Defined.

(** X4: [convert_grid_data_to_table] raises [IndexError] on an array of
    fewer than two dimensions (the precondition of its docstring), and on
    an array of four or more dimensions whose first axis is empty. *)
Theorem convert_grid_data_to_table_index_error data :
  wf data = true ->
  ((ndim data < 2)%nat -> convert_grid_data_to_table data = Raise IndexError) /\
  ((3 < ndim data)%nat -> nth 0 (shape data) 0%nat = 0%nat ->
   convert_grid_data_to_table data = Raise IndexError).
Proof.
  intros Hwf. split.
  - intros Hndim. destruct data as [x | sub items]; [reflexivity |].
    unfold ndim in Hndim. simpl in Hndim.
    destruct sub as [| n sub]; [| simpl in Hndim; lia].
    destruct items as [| first rest]; [reflexivity |].
    destruct (wf_item [] (first :: rest) 0 first Hwf eq_refl) as [_ Hshape].
    destruct first as [x | sub' items']; [reflexivity | discriminate].
  - intros Hndim Hempty. destruct data as [x | sub items]; [reflexivity |].
    simpl in Hempty. destruct items; [| discriminate].
    unfold ndim in Hndim. simpl in Hndim.
    cbn [convert_grid_data_to_table]. unfold ndim. simpl.
    destruct (length sub) as [| [| [| k]]]; try lia. reflexivity.
Qed.

(** X4 at a row and at an empty stack of grids. *)
Lemma convert_grid_data_to_table_index_error_witness :
  convert_grid_data_to_table (row [1; 2]%float) = Raise IndexError /\
  convert_grid_data_to_table (Array [2; 2; 3]%nat []) = Raise IndexError.
Proof.
  split.
  - exact (proj1 (convert_grid_data_to_table_index_error (row [1; 2]%float)
                    eq_refl) (Nat.lt_succ_diag_r 1)).
  - exact (proj2 (convert_grid_data_to_table_index_error
                    (Array [2; 2; 3]%nat []) eq_refl)
             (Nat.lt_succ_diag_r 3) eq_refl).
Defined.



End StatisticsNumbers.

(** ** Grids of more than three dimensions *)

Module StatisticsStack.
Import Statistics StatisticsFacts.
Local Open Scope nat_scope.

Lemma wf_items sub items :
  wf (Array sub items) = true ->
  Forall (fun it => wf it = true /\ shape it = sub) items.
Proof.
  simpl. rewrite forallb_forall, Forall_forall. intros Hwf it Hin.
  specialize (Hwf it). rewrite andb_true_iff, bool_decide_eq_true in Hwf.
  apply Hwf, list_elem_of_In, Hin.
Qed.

Lemma wf_array sub items :
  Forall (fun it => wf it = true /\ shape it = sub) items ->
  wf (Array sub items) = true.
Proof.
  simpl. rewrite forallb_forall, Forall_forall. intros Hall it Hin.
  destruct (Hall it) as [Hwf Hshape]; [apply list_elem_of_In, Hin |].
  rewrite Hwf, bool_decide_eq_true_2 by exact Hshape. reflexivity.
Qed.

(** Two rows of a table, one after the other. *)
Lemma concatenate0_rows x y ca cb :
  wf x = true -> shape x = [ca] -> wf y = true -> shape y = [cb] ->
  exists t, concatenate0 x y = Ok t /\ wf t = true /\ shape t = [ca + cb].
Proof.
  intros Hx Hsx Hy Hsy.
  destruct x as [? | sx ix]; [discriminate |].
  destruct y as [? | sy iy]; [discriminate |].
  simpl in Hsx, Hsy. injection Hsx as Hlx ->. injection Hsy as Hly ->.
  exists (Array [] (ix ++ iy)). split; [reflexivity |]. split.
  - apply wf_array, Forall_app. split; apply wf_items; assumption.
  - simpl. rewrite length_app. congruence.
Qed.

(** Two tables of the same number of rows, side by side. *)
Lemma hstack_tables a b lat ca cb :
  wf a = true -> shape a = [lat; ca] -> wf b = true -> shape b = [lat; cb] ->
  exists t, hstack a b = Ok t /\ wf t = true /\ shape t = [lat; ca + cb].
Proof.
  intros Ha Hsa Hb Hsb.
  destruct a as [? | sa ia]; [discriminate |].
  destruct b as [? | sb ib]; [discriminate |].
  simpl in Hsa, Hsb. injection Hsa as Hla ->. injection Hsb as Hlb ->.
  pose proof (wf_items _ _ Ha) as Hia. pose proof (wf_items _ _ Hb) as Hib.
  destruct (mapM_pyresult (fun xy => concatenate0 xy.1 xy.2)
              (fun _ t => wf t = true /\ shape t = [ca + cb]) (zip ia ib))
    as (items & Hitems & Hall).
  { intros [x y] Hin. apply elem_of_zip_l in Hin as Hx.
    apply elem_of_zip_r in Hin as Hy. simpl in Hx, Hy.
    rewrite Forall_forall in Hia, Hib.
    destruct (Hia x Hx) as [Hwx Hsx]. destruct (Hib y Hy) as [Hwy Hsy].
    exact (concatenate0_rows x y ca cb Hwx Hsx Hwy Hsy). }
  exists (Array [ca + cb] items). split; [| split].
  - unfold hstack. simpl. unfold concatenate1.
    destruct (decide ([] = [] /\ length ia = length ib)) as [_ | Hne];
      [| exfalso; apply Hne; split; [reflexivity | congruence]].
    rewrite Hitems. reflexivity.
  - apply wf_array. clear -Hall.
    induction Hall as [| xy t pairs ts Ht _ IH]; constructor; assumption.
  - simpl. rewrite <- (Forall2_length _ _ _ Hall), length_zip. f_equal. lia.
Qed.

(** The table of a 3-dimensional array is itself an array numpy can
    build. *)
Lemma convert_3d_wf data time lat lon :
  wf data = true -> shape data = [time; lat; lon] -> 0 < lat ->
  exists table,
    convert_grid_data_to_table data = Ok table /\
    wf table = true /\ shape table = [lat; time].
Proof.
  intros Hwf Hshape Hlat.
  assert (Hndim : ndim data = 3) by (unfold ndim; rewrite Hshape; reflexivity).
  rewrite (convert_grid_data_to_table_3d _ Hndim).
  destruct (convert_3d_table data time lat lon Hwf Hshape)
    as (rows & -> & Hlen & Hrows).
  exists (np_array rows). split; [reflexivity |].
  assert (Hall : Forall (fun row => length row = time) rows).
  { apply Forall_lookup. intros i row Hrow.
    destruct (Hrows i) as (row' & Hrow' & Hlenrow & _).
    - rewrite <- Hlen. eapply lookup_lt_Some. exact Hrow.
    - congruence. }
  destruct rows as [| row0 rows]; [simpl in Hlen; lia |].
  inversion Hall as [| ? ? Hrow0 Hrest]; subst. split.
  - unfold np_array. apply wf_array. apply Forall_forall.
    intros it Hin. apply list_elem_of_In, in_map_iff in Hin.
    destruct Hin as (row & <- & Hrow). split.
    + apply wf_array, Forall_forall. intros c Hc.
      apply list_elem_of_In, in_map_iff in Hc. destruct Hc as (v & <- & _).
      split; reflexivity.
    + simpl. rewrite length_map. f_equal.
      rewrite Forall_forall in Hall. apply Hall, list_elem_of_In, Hrow.
  - simpl. rewrite length_map. reflexivity.
Qed.

(** [convert_grid_data_to_table] beyond three dimensions: the first item
    is converted, the others are stacked to its right. *)
Lemma convert_grid_data_to_table_stack sub first rest :
  3 < ndim (Array sub (first :: rest)) ->
  convert_grid_data_to_table (Array sub (first :: rest))
  = (table ← convert_grid_data_to_table first; stack_rows rest table).
Proof.
  intros Hndim. cbn [convert_grid_data_to_table].
  destruct (ndim (Array sub (first :: rest))) as [| [| [| [| k]]]]; try lia.
  reflexivity.
Qed.

Lemma stack_rows_tables lat block rest :
  Forall (fun it => exists t, convert_grid_data_to_table it = Ok t /\
                              wf t = true /\ shape t = [lat; block]) rest ->
  forall table columns,
    wf table = true -> shape table = [lat; columns] ->
    exists t, stack_rows rest table = Ok t /\ wf t = true /\
              shape t = [lat; columns + length rest * block].
Proof.
  induction 1 as [| it rest (t0 & Hconv & Hwf0 & Hshape0) _ IH];
    intros table columns Hwf Hshape.
  - exists table. split; [reflexivity |]. split; [exact Hwf |].
    rewrite Hshape. f_equal. f_equal. simpl. lia.
  - destruct (hstack_tables table t0 lat columns block Hwf Hshape Hwf0 Hshape0)
      as (t1 & Hstack & Hwf1 & Hshape1).
    destruct (IH t1 (columns + block) Hwf1 Hshape1) as (t & Ht & Hwft & Hst).
    exists t. split; [| split; [exact Hwft |]].
    + simpl. rewrite Hconv. simpl. rewrite Hstack. simpl. exact Ht.
    + rewrite Hst. f_equal. f_equal. simpl. lia.
Qed.

(** X5: for a well-formed array of shape (d1, ..., dk, time, lat, lon)
    with no empty leading axis and at least one latitude band,
    [convert_grid_data_to_table] returns a table of shape
    (lat, d1 * ... * dk * time): the tables of the items are stacked side
    by side. *)
Theorem convert_grid_data_to_table_stacks data :
  wf data = true ->
  forall dims time lat lon,
    shape data = dims ++ [time; lat; lon] ->
    Forall (fun d => 0 < d) dims -> 0 < lat ->
    exists table,
      convert_grid_data_to_table data = Ok table /\
      wf table = true /\
      shape table = [lat; foldr Nat.mul 1 dims * time].
Proof.
  induction data as [x | sub items IH] using ndarray_nested_ind;
    intros Hwf dims time lat lon Hshape Hdims Hlat.
  - destruct dims; discriminate.
  - destruct dims as [| d dims].
    + destruct (convert_3d_wf _ time lat lon Hwf Hshape Hlat)
        as (table & Hconv & Hwft & Hst).
      exists table. split; [exact Hconv |]. split; [exact Hwft |].
      rewrite Hst. simpl. f_equal. f_equal. lia.
    + simpl in Hshape. injection Hshape as Hlen Hsub.
      inversion Hdims as [| ? ? Hd Hdims']; subst.
      pose proof (wf_items _ _ Hwf) as Hitems.
      assert (Hconv : Forall (fun it =>
                exists t, convert_grid_data_to_table it = Ok t /\
                          wf t = true /\
                          shape t = [lat; foldr Nat.mul 1 dims * time]) items).
      { rewrite Forall_forall in IH, Hitems |- *. intros it Hin.
        destruct (Hitems it Hin) as [Hwfit Hshit].
        exact (IH it Hin Hwfit dims time lat lon Hshit Hdims' Hlat). }
      destruct items as [| first rest]; [simpl in Hd; lia |].
      inversion Hconv as [| ? ? (t0 & Hfirst & Hwf0 & Hshape0) Hrest]; subst.
      destruct (stack_rows_tables lat _ rest Hrest t0 _ Hwf0 Hshape0)
        as (t & Ht & Hwft & Hst).
      exists t. split; [| split; [exact Hwft |]].
      * rewrite convert_grid_data_to_table_stack.
        -- rewrite Hfirst. simpl. exact Ht.
        -- unfold ndim. simpl. rewrite length_app. simpl. lia.
      * rewrite Hst. f_equal. f_equal. simpl. lia.
Qed.

(** X5 at two sample grids stacked along a fourth axis. *)
Lemma convert_grid_data_to_table_stacks_witness :
  exists table,
    convert_grid_data_to_table sample_stack = Ok table /\
    wf table = true /\ shape table = [2; 4].
Proof.
  apply (convert_grid_data_to_table_stacks sample_stack eq_refl [2] 2 2 3 eq_refl).
  - constructor; [exact (Nat.lt_0_succ 1) | constructor].
  - exact (Nat.lt_0_succ 1).
Defined.

End StatisticsStack.

(** ** Tables as text *)

Module StatisticsTables.
Import Statistics StatisticsFacts.
Local Open Scope string_scope.
Local Open Scope list_scope.
Local Open Scope nat_scope.

(** *** Lengths of strings *)

Lemma string_length_append (s1 s2 : string) :
  String.length (s1 +:+ s2) = String.length s1 + String.length s2.
Proof.
  induction s1 as [| c s1 IH]; [reflexivity |].
  change (S (String.length (s1 +:+ s2)) = S (String.length s1 + String.length s2)).
  rewrite IH. reflexivity.
Qed.

Lemma string_append_assoc (s1 s2 s3 : string) :
  (s1 +:+ s2) +:+ s3 = s1 +:+ (s2 +:+ s3).
Proof.
  induction s1 as [| c s1 IH]; [reflexivity |].
  change (String c ((s1 +:+ s2) +:+ s3) = String c (s1 +:+ (s2 +:+ s3))).
  rewrite IH. reflexivity.
Qed.

Lemma repeat_char_length c n : String.length (repeat_char c n) = n.
Proof.
  unfold repeat_char. induction n as [| n IH]; [reflexivity |].
  change (S (String.length (string_of_list_ascii (replicate n c))) = S n).
  rewrite IH. reflexivity.
Qed.

Lemma substring_length n (s : string) :
  n <= String.length s -> String.length (substring 0 n s) = n.
Proof.
  revert n. induction s as [| c s IH]; intros [| n] Hn; simpl in *;
    try reflexivity; try lia.
  rewrite IH by lia. reflexivity.
Qed.

(** A fitted cell is exactly as wide as asked. *)
Lemma fit_length s n : String.length (fit s n) = n.
Proof.
  unfold fit. destruct (n <? String.length s) eqn:Hlong.
  - apply Nat.ltb_lt in Hlong. apply substring_length. lia.
  - apply Nat.ltb_ge in Hlong. destruct (String.length s <? n) eqn:Hshort.
    + apply Nat.ltb_lt in Hshort.
      rewrite string_length_append, repeat_char_length. lia.
    + apply Nat.ltb_ge in Hshort. lia.
Qed.

Lemma concat_length sep (cells : list string) n :
  Forall (fun c => String.length c = n) cells ->
  String.length (String.concat sep cells)
  = length cells * n + String.length sep * (length cells - 1).
Proof.
  induction 1 as [| c cells Hc Hcells IH]; [simpl; lia |].
  destruct cells as [| c' cells].
  - simpl. lia.
  - change (String.concat sep (c :: c' :: cells))
      with (c +:+ sep +:+ String.concat sep (c' :: cells)).
    rewrite !string_length_append, IH, Hc. simpl length.
    rewrite !Nat.sub_succ, !Nat.sub_0_r, (Nat.mul_succ_r (String.length sep)). lia.
Qed.

(** X6: a row formatted by [_format_row] holds every cell on exactly
    [length] characters, joined by " | ": n cells make
    n * length + 3 * (n - 1) characters, whatever the cells. *)
Theorem format_row_width {A} (str : A -> string) (cell_values : list A)
    (length : nat) :
  String.length (_format_row str cell_values length)
  = List.length cell_values * length + 3 * (List.length cell_values - 1).
Proof.
  unfold _format_row. rewrite (concat_length _ _ length).
  - rewrite length_map. reflexivity.
  - apply Forall_forall. intros c Hc. apply list_elem_of_In, in_map_iff in Hc.
    destruct Hc as (v & <- & _). apply fit_length.
Qed.

Section TableFacts.

Context {A : Type} (str : A -> string) (floor_log10 : nat -> nat).

(** X7: [convert_table_to_strs] raises [IndexError] on an empty table;
    otherwise it returns the header line, the rule, and then the rows of
    the table from the last to the first.  Header and rule are as wide as
    a row of the first row's number of cells, and so is every line when
    all rows have that number of cells. *)
Theorem convert_table_to_strs_layout (first : list A) (rest : list (list A)) :
  let table := first :: rest in
  let cell_length := floor_log10 (List.length table) + 10 in
  let width := List.length first * cell_length + 3 * (List.length first - 1) in
  let header :=
    _format_row (fun s : string => s)
      (map (fun i : nat => "Division " +:+ pretty i)
           (seq 1 (List.length first))) cell_length in
  let rule :=
    _format_row (fun s : string => s)
      (replicate (List.length first) (repeat_char "-" cell_length))
      cell_length in
  let lines := reverse (map (fun row => _format_row str row cell_length) table) in
  convert_table_to_strs str floor_log10 [] = Raise IndexError /\
  convert_table_to_strs str floor_log10 table = Ok (header :: rule :: lines) /\
  String.length header = width /\ String.length rule = width /\
  (Forall (fun row => List.length row = List.length first) rest ->
   Forall (fun line => String.length line = width) lines).
Proof.
  intros table cell_length width header rule lines. split; [reflexivity |].
  split; [| split; [| split]].
  - unfold convert_table_to_strs, table. cbv zeta. rewrite reverse_app.
    reflexivity.
  - unfold header. rewrite format_row_width, length_map, length_seq. reflexivity.
  - unfold rule. rewrite format_row_width, length_replicate. reflexivity.
  - intros Hrows. apply Forall_reverse, Forall_forall.
    intros line Hline. apply list_elem_of_In, in_map_iff in Hline.
    destruct Hline as (row & <- & Hrow). rewrite format_row_width.
    assert (Hlen : List.length row = List.length first).
    { destruct Hrow as [<- | Hrow]; [reflexivity |].
      rewrite Forall_forall in Hrows. apply Hrows, list_elem_of_In, Hrow. }
    rewrite Hlen. reflexivity.
Qed.

Lemma convert_table_to_strs_length (table : list (list A)) lines :
  convert_table_to_strs str floor_log10 table = Ok lines ->
  table <> [] /\ List.length lines = List.length table + 2.
Proof.
  destruct table as [| first rest]; [discriminate |].
  unfold convert_table_to_strs. cbv zeta. intros [= <-].
  split; [discriminate |].
  rewrite length_reverse. simpl. rewrite length_app, length_map. simpl. lia.
Qed.

Lemma convert_table_to_strs_ok (table : list (list A)) :
  table <> [] -> exists lines, convert_table_to_strs str floor_log10 table = Ok lines.
Proof. destruct table; [congruence |]. intros _. eexists. reflexivity. Qed.

End TableFacts.

Lemma merge_str_tables_ok table1 table2 sep :
  List.length table1 = List.length table2 ->
  merge_str_tables table1 table2 sep = Ok (zip_with (join_pair sep) table1 table2).
Proof.
  intros Hlen. unfold merge_str_tables.
  rewrite bool_decide_eq_false_2 by (intros Hne; exact (Hne Hlen)). reflexivity.
Qed.

Lemma merge_str_tables_fail table1 table2 sep :
  List.length table1 <> List.length table2 ->
  merge_str_tables table1 table2 sep = Raise IndexError.
Proof.
  intros Hlen. unfold merge_str_tables.
  rewrite bool_decide_eq_true_2 by exact Hlen. reflexivity.
Qed.

(** X8: [merge_str_tables] raises [IndexError] when the two tables differ
    in their number of lines; otherwise it returns as many lines, line i
    being line i of the first table, the separator, and line i of the
    second. *)
Theorem merge_str_tables_rows table1 table2 sep :
  (List.length table1 = List.length table2 ->
   exists rows,
     merge_str_tables table1 table2 sep = Ok rows /\
     List.length rows = List.length table1 /\
     forall i left right,
       table1 !! i = Some left -> table2 !! i = Some right ->
       rows !! i = Some (left +:+ sep +:+ right)) /\
  (List.length table1 <> List.length table2 ->
   merge_str_tables table1 table2 sep = Raise IndexError).
Proof.
  split; [| apply merge_str_tables_fail].
  intros Hlen. exists (zip_with (join_pair sep) table1 table2).
  split; [apply merge_str_tables_ok; exact Hlen |]. split.
  - rewrite length_zip_with. lia.
  - intros i left right Hleft Hright.
    rewrite lookup_zip_with, Hleft. simpl. rewrite Hright. reflexivity.
Qed.

Lemma zip_with_join_assoc sep (t1 t2 t3 : list string) :
  zip_with (join_pair sep) (zip_with (join_pair sep) t1 t2) t3
  = zip_with (join_pair sep) t1 (zip_with (join_pair sep) t2 t3).
Proof.
  revert t2 t3. induction t1 as [| a t1 IH]; intros [| b t2] [| c t3];
    simpl; try reflexivity.
  rewrite IH. unfold join_pair. rewrite !string_append_assoc. reflexivity.
Qed.

(** X9: merging three tables of the same number of lines gives the same
    lines whether the first two or the last two are merged first, and
    does not raise. *)
Theorem merge_str_tables_assoc table1 table2 table3 sep :
  List.length table1 = List.length table2 ->
  List.length table2 = List.length table3 ->
  (left ← merge_str_tables table1 table2 sep; merge_str_tables left table3 sep)
  = (right ← merge_str_tables table2 table3 sep;
     merge_str_tables table1 right sep) /\
  exists rows,
    (left ← merge_str_tables table1 table2 sep;
     merge_str_tables left table3 sep) = Ok rows.
Proof.
  intros H12 H23.
  rewrite (merge_str_tables_ok table1 table2) by exact H12.
  rewrite (merge_str_tables_ok table2 table3) by exact H23.
  simpl.
  rewrite !merge_str_tables_ok by (rewrite length_zip_with; lia).
  rewrite zip_with_join_assoc. split; [reflexivity |]. eexists. reflexivity.
Qed.

Section PrintFacts.

Context {A : Type} (str : A -> string) (floor_log10 : nat -> nat).

Lemma merge_all_same_rows n (extras : list (list (list A))) :
  0 < n ->
  Forall (fun extra => List.length extra = n) extras ->
  forall acc, List.length acc = n + 2 ->
    exists rows, merge_all str floor_log10 acc extras = Ok rows /\
                 List.length rows = n + 2.
Proof.
  intros Hn. induction 1 as [| extra extras Hextra _ IH]; intros acc Hacc.
  - exists acc. split; [reflexivity | exact Hacc].
  - destruct (convert_table_to_strs_ok str floor_log10 extra) as [lines Hlines].
    { intros ->. simpl in Hextra. lia. }
    destruct (convert_table_to_strs_length _ _ _ _ Hlines) as [_ Hlen].
    simpl. rewrite Hlines. simpl.
    rewrite merge_str_tables_ok by lia. simpl.
    apply IH. rewrite length_zip_with. lia.
Qed.

Lemma merge_all_other_rows n (extras : list (list (list A))) :
  ~ Forall (fun extra => List.length extra = n) extras ->
  0 < n ->
  forall acc, List.length acc = n + 2 ->
    merge_all str floor_log10 acc extras = Raise IndexError.
Proof.
  intros Hnot Hn. induction extras as [| extra extras IH]; intros acc Hacc.
  - exfalso. apply Hnot. constructor.
  - simpl. destruct (decide (extra = [])) as [-> | Hne]; [reflexivity |].
    destruct (convert_table_to_strs_ok str floor_log10 extra Hne)
      as [lines Hlines].
    destruct (convert_table_to_strs_length _ _ _ _ Hlines) as [_ Hlen].
    rewrite Hlines. simpl.
    destruct (decide (List.length extra = n)) as [Hsame | Hdiff].
    + rewrite merge_str_tables_ok by lia. simpl. apply IH.
      * intros Hall. apply Hnot. constructor; assumption.
      * rewrite length_zip_with. lia.
    + rewrite merge_str_tables_fail by lia. reflexivity.
Qed.

(** X10: [print_tables] raises [IndexError] without a table, with an empty
    first table, and as soon as one table does not have as many rows as
    the first; otherwise it prints an empty line, the two header lines and
    the rows, and an empty line. *)
Theorem print_tables_lines (first : list (list A))
    (extras : list (list (list A))) :
  print_tables str floor_log10 [] = Raise IndexError /\
  (first = [] -> print_tables str floor_log10 (first :: extras) = Raise IndexError) /\
  (first <> [] ->
   Forall (fun extra => List.length extra = List.length first) extras ->
   exists rows,
     print_tables str floor_log10 (first :: extras) = Ok ([""] ++ rows ++ [""]) /\
     List.length rows = List.length first + 2) /\
  (first <> [] ->
   ~ Forall (fun extra => List.length extra = List.length first) extras ->
   print_tables str floor_log10 (first :: extras) = Raise IndexError).
Proof.
  split; [reflexivity |]. split; [intros ->; reflexivity |].
  assert (Hfirst : first <> [] ->
            0 < List.length first /\
            exists lines,
              convert_table_to_strs str floor_log10 first = Ok lines /\
              List.length lines = List.length first + 2).
  { intros Hne. split; [destruct first; [congruence | simpl; lia] |].
    destruct (convert_table_to_strs_ok str floor_log10 first Hne) as [lines Hl].
    exists lines. split; [exact Hl |].
    exact (proj2 (convert_table_to_strs_length _ _ _ _ Hl)). }
  split.
  - intros Hne Hall. destruct (Hfirst Hne) as (Hpos & lines & Hlines & Hlen).
    destruct (merge_all_same_rows _ extras Hpos Hall lines Hlen)
      as (rows & Hrows & Hrlen).
    exists rows. split; [| exact Hrlen].
    unfold print_tables. rewrite Hlines. simpl. rewrite Hrows. reflexivity.
  - intros Hne Hnot. destruct (Hfirst Hne) as (Hpos & lines & Hlines & Hlen).
    unfold print_tables. rewrite Hlines. simpl.
    rewrite (merge_all_other_rows _ extras Hnot Hpos lines Hlen). reflexivity.
Qed.

End PrintFacts.

(** The lines of a table of two rows and two columns. *)
Lemma convert_table_to_strs_layout_witness :
  convert_table_to_strs sample_str digits_minus_one [[1; 2]; [nan; 4]]%float
  = Ok ["Division 1 | Division 2";
        "---------- | ----------";
        "nan        | 0.0       ";
        "0.0        | 0.0       "] /\
  Forall (fun line => String.length line = 23)
         ["nan        | 0.0       "; "0.0        | 0.0       "].
Proof.
  destruct (convert_table_to_strs_layout sample_str digits_minus_one
              [1; 2]%float [[nan; 4]%float])
    as (_ & Hlines & _ & _ & Hwidth).
  split.
  - exact Hlines.
  - apply Hwidth. constructor; [reflexivity | constructor].
Defined.

(** Two tables of two lines merged, and two tables that do not match. *)
Lemma merge_str_tables_rows_witness :
  (exists rows,
      merge_str_tables ["a"; "b"] ["c"; "d"] " " = Ok rows /\
      rows !! 1 = Some "b d") /\
  merge_str_tables ["a"; "b"] ["c"] " " = Raise IndexError.
Proof.
  split.
  - destruct (proj1 (merge_str_tables_rows ["a"; "b"] ["c"; "d"] " ") eq_refl)
      as (rows & Hrows & _ & Hcells).
    exists rows. split; [exact Hrows |].
    exact (Hcells 1 "b" "d" eq_refl eq_refl).
  - apply (proj2 (merge_str_tables_rows ["a"; "b"] ["c"] " ")). discriminate.
Defined.

(** X9 at three tables of one line. *)
Lemma merge_str_tables_assoc_witness :
  (left ← merge_str_tables ["a"] ["b"] "-"; merge_str_tables left ["c"] "-")
  = (right ← merge_str_tables ["b"] ["c"] "-";
     merge_str_tables ["a"] right "-").
Proof.
  exact (proj1 (merge_str_tables_assoc ["a"] ["b"] ["c"] "-" eq_refl eq_refl)).
Defined.

(** Two tables of three rows are printed on seven lines; a table of one
    row does not go with one of three. *)
Lemma print_tables_lines_witness :
  (exists rows,
      print_tables sample_str digits_minus_one
        [[[1; 2]; [nan; 4]; [5; 6]]; [[1; 2]; [nan; 4]; [5; 6]]]%float
      = Ok ([""] ++ rows ++ [""]) /\
      List.length rows = 5) /\
  print_tables sample_str digits_minus_one
    [[[1; 2]; [nan; 4]; [5; 6]]; [[1; 2]]]%float = Raise IndexError.
Proof.
  split.
  - apply (proj1 (proj2 (proj2 (print_tables_lines sample_str digits_minus_one
             [[1; 2]; [nan; 4]; [5; 6]]%float
             [[[1; 2]; [nan; 4]; [5; 6]]%float])))).
    + discriminate.
    + constructor; [reflexivity | constructor].
  - apply (proj2 (proj2 (proj2 (print_tables_lines sample_str digits_minus_one
             [[1; 2]; [nan; 4]; [5; 6]]%float [[[1; 2]]%float])))).
    + discriminate.
    + intros Hall. inversion Hall as [| ? ? Hlen _]. discriminate Hlen.
Defined.

End StatisticsTables.

(** ** Requests *)

Module ApiRequests.
Import Api ApiFacts StatisticsTables.
Local Open Scope string_scope.
Local Open Scope list_scope.

Section Endpoints.

Context `{Collaborators}.

(** X11: when the request body is no valid configuration, each of the
    three endpoints is answered by [handle_invalid_config]: status 400 and
    a page carrying the message of the error; the store, the lock and the
    trace are left as they were. *)
Theorem invalid_configuration_answered data msg w :
  from_json_string data = Raise (InvalidConfigError msg) ->
  let answer := {| body := Html (error_template "Invalid Configuration" msg);
                   status := 400 |} in
  serve (scientific_dataset data) w = Some (answer, w) /\
  (forall varname time_seg,
      serve (single_model_data varname time_seg data) w = Some (answer, w)) /\
  (forall varname, serve (multi_model_data varname data) w = Some (answer, w)).
Proof.
  intros Hconfig answer.
  unfold serve, scientific_dataset, single_model_data, multi_model_data,
    mbind, M_bind, lift.
  rewrite Hconfig. repeat split.
Qed.

Lemma ensure_model_results_lock config w r w1 :
  ensure_model_results config w = Some (r, w1) ->
  img_fs_lock w1 = img_fs_lock w.
Proof.
  destruct (dataset_missing config w) eqn:Hmiss.
  - rewrite ensure_model_results_miss by exact Hmiss.
    unfold model_run. destruct (run_model config (store w)) as [[[] | e] store'];
      intros [= <- <-]; reflexivity.
  - rewrite ensure_model_results_hit by exact Hmiss.
    intros [= <- <-]. reflexivity.
Qed.

(** X12: when the model run raises after it has made the directory of
    the run, [ensure_model_results] passes the exception on and cleans
    nothing up; the next call for the same configuration finds the
    directory, reports the dataset as cached and runs no model. *)
Theorem interrupted_run_counts_as_cached config w e store' :
  dataset_missing config w = true ->
  run_model config (store w) = (Raise e, store') ->
  path_exists store' (dataset_parent_of config) = true ->
  exists w1,
    ensure_model_results config w = Some (Raise e, w1) /\
    store w1 = store' /\
    ensure_model_results config w1
    = Some (Ok (dataset_parent_of config, false), w1).
Proof.
  intros Hmiss Hrun Hthere. exists (model_run config w).2.
  pose proof (model_run_result config w) as Hres.
  pose proof (model_run_store config w) as Hstore.
  rewrite Hrun in Hres, Hstore. simpl in Hres, Hstore.
  split; [| split; [exact Hstore |]].
  - rewrite ensure_model_results_miss by exact Hmiss.
    destruct (model_run config w) as [[[] | e0] w1]; simpl in *;
      [discriminate | congruence].
  - apply ensure_model_results_hit. unfold dataset_missing.
    rewrite Hstore, Hthere. reflexivity.
Qed.

Lemma send_from_directory_missing directory filename w :
  is_file (store w) (path_join directory [filename]) = false ->
  send_from_directory directory filename w = Some (Raise NotFound, w).
Proof.
  intros Hfile. unfold send_from_directory. rewrite Hfile.
  destruct (startswith_sep filename || bool_decide (filename = "..")
            || String.prefix "../" filename); reflexivity.
Qed.

(** X13: when the directory of the run exists and the dataset file is not
    in it, [scientific_dataset] runs no model and ends in [NotFound]: the
    request is answered with status 404 and the world is unchanged. *)
Theorem scientific_dataset_without_file data config w :
  from_json_string data = Ok config ->
  dataset_missing config w = false ->
  is_file (store w)
    (path_join (dataset_parent_of config) [run_id config +:+ ".nc"]) = false ->
  scientific_dataset data w = Some (Raise NotFound, w) /\
  serve (scientific_dataset data) w
  = Some ({| body := DefaultPage; status := 404 |}, w).
Proof.
  intros Hconfig Hhit Hfile.
  assert (Hrun : scientific_dataset data w = Some (Raise NotFound, w)).
  { unfold scientific_dataset, mbind, M_bind, lift. rewrite Hconfig.
    rewrite ensure_model_results_hit by exact Hhit.
    rewrite send_from_directory_missing by exact Hfile. reflexivity. }
  split; [exact Hrun |]. unfold serve. rewrite Hrun. reflexivity.
Qed.

Lemma send_from_directory_world directory filename w r w' :
  send_from_directory directory filename w = Some (r, w') -> w' = w.
Proof.
  unfold send_from_directory.
  repeat match goal with |- context [if ?b then _ else _] => destruct b end;
    intros [= _ <-]; reflexivity.
Qed.

(** The answer of [send_from_directory] is the file or [NotFound]. *)
Lemma send_from_directory_answer directory filename w :
  send_from_directory directory filename w = Some (Raise NotFound, w) \/
  send_from_directory directory filename w
  = Some (Ok (FileAt (path_join directory [filename])), w).
Proof.
  unfold send_from_directory.
  repeat match goal with |- context [if ?b then _ else _] => destruct b end;
    auto.
Qed.

(** X15: a call of [single_model_data] that returns its file started with
    [img_fs_lock] free and leaves it free.  For every collaborator and
    request, once the renderer call has returned normally the lock is
    released before the file is looked up: the request ends with the
    answer of [send_from_directory], the image file under the status of
    the two [created] flags or [NotFound], and the lock is free in both
    cases. *)
Theorem single_model_data_releases_lock varname time_seg data w :
  (forall resp w',
      single_model_data varname time_seg data w = Some (Ok resp, w') ->
      img_fs_lock w = false /\ img_fs_lock w' = false) /\
  (forall config created w1 seg download_path img_created w2,
      from_json_string data = Ok config ->
      ensure_model_results config w
      = Some (Ok (dataset_parent_of config, created), w1) ->
      img_fs_lock w1 = false ->
      int_of_str time_seg = Ok seg ->
      ensure_image_output (dataset_parent_of config) varname (Some seg) config
        (locked w1) = Some (Ok (download_path, img_created), w2) ->
      exists r w',
        single_model_data varname time_seg data w = Some (r, w') /\
        img_fs_lock w' = false /\
        store w' = store w2 /\
        (r = Raise NotFound \/
         exists file,
           r = Ok {| body := FileAt file;
                     status := response_code created img_created |})).
Proof.
  split.
  - intros resp w'. unfold single_model_data. intros Hrun.
    apply bind_returns in Hrun as (config & w0 & Hconfig & Hrun).
    apply lift_returns in Hconfig as [Hconfig <-].
    apply bind_returns in Hrun as ([parent created] & w1 & Hmodel & Hrun).
    apply bind_returns in Hrun as ([] & wl & Hlock & Hrun).
    apply bind_returns in Hrun as (seg & w0 & Hseg & Hrun).
    apply lift_returns in Hseg as [Hseg <-].
    apply bind_returns in Hrun as ([download_path img_created] & w2 & Himg & Hrun).
    apply bind_returns in Hrun as ([] & w3 & Hrelease & Hrun).
    apply bind_returns in Hrun as (file & w4 & Hsend & Hrun).
    apply ret_returns in Hrun as [_ <-].
    apply send_from_directory_world in Hsend as ->.
    split.
    + rewrite <- (ensure_model_results_lock _ _ _ _ Hmodel).
      unfold acquire in Hlock. destruct (img_fs_lock w1); [discriminate | reflexivity].
    + unfold release in Hrelease. destruct (img_fs_lock w2); [| discriminate].
      injection Hrelease as <-. reflexivity.
  - intros config created w1 seg download_path img_created w2
      Hconfig Hmodel Hfree Hseg Himg.
    assert (Hheld : img_fs_lock w2 = true).
    { destruct (ensure_image_output_runs (dataset_parent_of config) varname
                  (Some seg) config (locked w1)) as (r & w' & Hrun & _ & Hlock).
      rewrite Himg in Hrun. injection Hrun as _ <-. exact Hlock. }
    unfold single_model_data, mbind, M_bind, lift.
    rewrite Hconfig, Hmodel. unfold acquire. rewrite Hfree, Hseg, Himg.
    unfold release. rewrite Hheld.
    set (w3 := {| store := store w2; img_fs_lock := false; trace := trace w2 |}).
    destruct (send_from_directory_answer download_path
                (image_file_name (varname +:+ "_" +:+ time_seg) config +:+ ".png")
                w3) as [Hsend | Hsend]; rewrite Hsend.
    + exists (Raise NotFound), w3. repeat split. left. reflexivity.
    + eexists. exists w3. repeat split. right. eexists. reflexivity.
Qed.

(** X17: when the archive of the variable is on disk, [multi_model_data]
    calls neither the renderer nor the archiver: after the dataset step it
    only records its check for the archive, and the store stays as it
    is. *)
Theorem multi_model_data_archive_cached varname data config created w w1 :
  from_json_string data = Ok config ->
  ensure_model_results config w
  = Some (Ok (dataset_parent_of config, created), w1) ->
  let zip := path_join (dataset_parent_of config)
               [scale_dir_name_of config; archive_name_of varname config]
             +:+ ".zip" in
  is_file (store w1) zip = true ->
  exists r w',
    multi_model_data varname data w = Some (r, w') /\
    store w' = store w1 /\
    trace w' = trace w1 ++ [EvArchiveCheck zip (img_fs_lock w1)].
Proof.
  intros Hconfig Hmodel zip Hthere.
  unfold multi_model_data, mbind, M_bind, lift, record, look.
  rewrite Hconfig, Hmodel. cbn [store img_fs_lock trace]. fold zip.
  rewrite Hthere. cbn [negb mret M_ret store img_fs_lock trace].
  match goal with
  | |- context [send_from_directory ?d ?f ?w0] =>
      destruct (send_from_directory d f w0) as [[[file | e] w2] |] eqn:Hsend
  end.
  - apply send_from_directory_world in Hsend as ->.
    eexists. eexists. split; [reflexivity |]. split; reflexivity.
  - apply send_from_directory_world in Hsend as ->.
    eexists. eexists. split; [reflexivity |]. split; reflexivity.
  - unfold send_from_directory in Hsend.
    repeat match type of Hsend with
           | context [if ?b then _ else _] => destruct b
           end; discriminate.
Qed.

(** *** Where the archive is served from *)

Lemma startswith_sep_run_id (r x : string) :
  startswith_sep (r +:+ "_" +:+ x) = startswith_sep r.
Proof. destruct r; reflexivity. Qed.

Lemma join_component_length path b :
  startswith_sep b = false ->
  (String.length path + String.length b
   <= String.length (join_component path b))%nat /\
  (String.length (join_component path b)
   <= String.length path + 1 + String.length b)%nat.
Proof.
  intros Hb. unfold join_component. rewrite Hb.
  destruct (bool_decide (path = "") || endswith_sep path);
    rewrite ?string_length_append; simpl; lia.
Qed.

Lemma send_from_directory_accepts directory filename w file w' :
  send_from_directory directory filename w = Some (Ok file, w') ->
  startswith_sep filename = false /\
  file = FileAt (path_join directory [filename]).
Proof.
  unfold send_from_directory.
  destruct (startswith_sep filename || bool_decide (filename = "..")
            || String.prefix "../" filename) eqn:Hguard; [discriminate |].
  destruct (is_file (store w) (path_join directory [filename]));
    [| discriminate].
  intros [= <- _]. apply orb_false_iff in Hguard as [Hguard _].
  apply orb_false_iff in Hguard as [Hguard _]. split; [exact Hguard | reflexivity].
Qed.

(** X18: whenever [multi_model_data] returns a file, it is the file at
    [<dataset parent>/<archive name>.zip]; this path is shorter than, and
    so different from, the path
    [<dataset parent>/<scale directory>/<archive name>.zip] where the
    archive is looked for and built. *)
Theorem multi_model_data_serves_beside_archive varname data w resp w' :
  multi_model_data varname data w = Some (Ok resp, w') ->
  exists config,
    from_json_string data = Ok config /\
    let served := path_join (dataset_parent_of config)
                    [archive_name_of varname config +:+ ".zip"] in
    let zip := path_join (dataset_parent_of config)
                 [scale_dir_name_of config; archive_name_of varname config]
               +:+ ".zip" in
    body resp = FileAt served /\
    (String.length served < String.length zip)%nat /\
    served <> zip.
Proof.
  unfold multi_model_data. intros Hrun.
  apply bind_returns in Hrun as (config & w0 & Hconfig & Hrun).
  apply lift_returns in Hconfig as [Hconfig <-].
  apply bind_returns in Hrun as ([parent created] & w1 & Hmodel & Hrun).
  pose proof (ensure_model_results_returns _ _ _ _ _ Hmodel) as [-> ->].
  apply bind_returns in Hrun as ([] & w2 & _ & Hrun).
  apply bind_returns in Hrun as (present & w3 & _ & Hrun).
  apply bind_returns in Hrun as (img_created & w4 & _ & Hrun).
  apply bind_returns in Hrun as (file & w5 & Hsend & Hrun).
  apply ret_returns in Hrun as [<- _].
  apply send_from_directory_accepts in Hsend as [Hname ->].
  exists config. split; [exact Hconfig |]. cbv zeta.
  split; [reflexivity |].
  assert (Hrun_id : startswith_sep (run_id config) = false).
  { unfold archive_name_of in Hname.
    rewrite string_append_assoc in Hname.
    change ((("_" +:+ varname +:+ "_" +:+ scale_suffix_of config) +:+ ".zip"))
      with ("_" +:+ ((varname +:+ "_" +:+ scale_suffix_of config) +:+ ".zip"))
      in Hname.
    rewrite startswith_sep_run_id in Hname. exact Hname. }
  assert (Harchive : startswith_sep (archive_name_of varname config) = false).
  { unfold archive_name_of. rewrite startswith_sep_run_id. exact Hrun_id. }
  assert (Hdir : startswith_sep (scale_dir_name_of config) = false).
  { unfold scale_dir_name_of. rewrite startswith_sep_run_id. exact Hrun_id. }
  assert (Hlen : (String.length
                    (path_join (dataset_parent_of config)
                       [archive_name_of varname config +:+ ".zip"])
                  < String.length
                      (path_join (dataset_parent_of config)
                         [scale_dir_name_of config;
                          archive_name_of varname config] +:+ ".zip"))%nat).
  { unfold path_join. simpl fold_left.
    destruct (join_component_length (dataset_parent_of config)
                (archive_name_of varname config +:+ ".zip") Hname) as [_ Hserved].
    destruct (join_component_length (dataset_parent_of config)
                (scale_dir_name_of config) Hdir) as [Hinner _].
    destruct (join_component_length
                (join_component (dataset_parent_of config)
                   (scale_dir_name_of config))
                (archive_name_of varname config) Harchive) as [Houter _].
    rewrite string_length_append in Hserved |- *.
    assert (Hscale : (4 <= String.length (scale_dir_name_of config))%nat).
    { unfold scale_dir_name_of, scale_suffix_of.
      rewrite !string_length_append. simpl. lia. }
    simpl String.length in *. lia. }
  split; [exact Hlen |]. intros Heq. rewrite Heq in Hlen. lia.
Qed.

(** X14: with a runner that returns and leaves the directory and the
    dataset file of the run behind, the first request for the dataset is
    answered with the file and status 201, after one model run, and a
    second request with the same file and status 200, without a run. *)
Theorem scientific_dataset_twice data config w store' :
  from_json_string data = Ok config ->
  dataset_missing config w = true ->
  run_model config (store w) = (Ok tt, store') ->
  path_exists store' (dataset_parent_of config) = true ->
  let dataset_name := run_id config +:+ ".nc" in
  let dataset := path_join (dataset_parent_of config) [dataset_name] in
  is_file store' dataset = true ->
  startswith_sep dataset_name || bool_decide (dataset_name = "..")
    || String.prefix "../" dataset_name = false ->
  exists w1,
    scientific_dataset data w
    = Some (Ok {| body := FileAt dataset; status := 201 |}, w1) /\
    scientific_dataset data w1
    = Some (Ok {| body := FileAt dataset; status := 200 |}, w1) /\
    runs w1 = S (runs w).
Proof.
  intros Hconfig Hmiss Hrun Hthere dataset_name dataset Hfile Hsafe.
  exists (model_run config w).2.
  pose proof (model_run_result config w) as Hres.
  pose proof (model_run_store config w) as Hstore.
  rewrite Hrun in Hres, Hstore. simpl in Hres, Hstore.
  assert (Hhit : dataset_missing config (model_run config w).2 = false).
  { unfold dataset_missing. rewrite Hstore, Hthere. reflexivity. }
  assert (Hsend : send_from_directory (dataset_parent_of config) dataset_name
                    (model_run config w).2
                  = Some (Ok (FileAt dataset), (model_run config w).2)).
  { unfold send_from_directory. rewrite Hsafe, Hstore. fold dataset.
    rewrite Hfile. reflexivity. }
  split; [| split; [| apply model_run_runs]].
  - unfold scientific_dataset, mbind, M_bind, lift. rewrite Hconfig.
    rewrite ensure_model_results_miss by exact Hmiss.
    destruct (model_run config w) as [[[] | e] w1]; simpl in Hres, Hsend |- *;
      [| discriminate].
    fold dataset_name. rewrite Hsend. reflexivity.
  - unfold scientific_dataset, mbind, M_bind, lift. rewrite Hconfig.
    rewrite ensure_model_results_hit by exact Hhit.
    fold dataset_name. rewrite Hsend. reflexivity.
Qed.

(** X16: for every collaborator and request, when the renderer call of
    [single_model_data] raises, the request ends with that exception and
    [img_fs_lock] is still held. *)
Theorem single_model_data_error_path
    varname time_seg data w config created w1 seg e w2 :
  from_json_string data = Ok config ->
  ensure_model_results config w
  = Some (Ok (dataset_parent_of config, created), w1) ->
  img_fs_lock w1 = false ->
  int_of_str time_seg = Ok seg ->
  ensure_image_output (dataset_parent_of config) varname (Some seg) config
    (locked w1) = Some (Raise e, w2) ->
  single_model_data varname time_seg data w = Some (Raise e, w2) /\
  img_fs_lock w2 = true /\
  serve (single_model_data varname time_seg data) w
  = Some (handle_exception e, w2).
Proof.
  intros Hconfig Hmodel Hfree Hseg Himg.
  destruct (single_model_data_raise_keeps_lock varname time_seg data w config
              created w1 seg e w2 Hconfig Hmodel Hfree Hseg Himg)
    as [Hrun Hheld].
  split; [exact Hrun |]. split; [exact Hheld |].
  unfold serve. rewrite Hrun. reflexivity.
Qed.

(** X19: for every collaborator and request, a call of [multi_model_data]
    that starts with [img_fs_lock] free ends with it free, and every check
    for the archive, renderer call and archive creation it records was
    made without the lock. *)
Theorem multi_model_data_guard_free varname data w r w' :
  img_fs_lock w = false ->
  multi_model_data varname data w = Some (r, w') ->
  img_fs_lock w' = false /\
  exists evs : list event,
    trace w' = trace w ++ evs /\
    Forall (fun ev => guard_of ev <> Some true) evs.
Proof. exact (multi_model_data_never_guarded varname data w r w'). Qed.

End Endpoints.

(** An empty body is an invalid configuration for the stand-in parser. *)
Lemma invalid_configuration_answered_witness :
  serve (@multi_model_data (reference 2) "temperature" "") empty_world
  = Some ({| body := Html (error_template "Invalid Configuration"
                                          "empty request");
             status := 400 |}, empty_world).
Proof.
  exact (proj2 (proj2 (@invalid_configuration_answered (reference 2) ""
                         "empty request" empty_world eq_refl)) "temperature").
Defined.

(** X12 with a runner interrupted by a full disk. *)
Lemma interrupted_run_counts_as_cached_witness :
  exists w1,
    @ensure_model_results interrupted sample_config empty_world
    = Some (Raise (IOError (Some 28)), w1) /\
    store w1 = store dataset_interrupted /\
    @ensure_model_results interrupted sample_config w1
    = Some (Ok ("output/X", false), w1).
Proof.
  apply (@interrupted_run_counts_as_cached interrupted sample_config
           empty_world (IOError (Some 28)) (store dataset_interrupted));
    reflexivity.
Defined.

(** X13 on the directory an interrupted run left. *)
Lemma scientific_dataset_without_file_witness :
  serve (@scientific_dataset (reference 2) "X") dataset_interrupted
  = Some ({| body := DefaultPage; status := 404 |}, dataset_interrupted).
Proof.
  exact (proj2 (@scientific_dataset_without_file (reference 2) "X"
                  sample_config dataset_interrupted eq_refl eq_refl eq_refl)).
Defined.

(** X15 on a store that holds the dataset: the images are rendered, the
    file is served and the lock is free again. *)
Lemma single_model_data_releases_lock_witness :
  (exists resp w',
      @single_model_data (reference 2) "temperature" "1" "X" dataset_cached
      = Some (Ok resp, w') /\ img_fs_lock w' = false) /\
  (exists r w',
      @single_model_data (reference 2) "temperature" "1" "X" dataset_cached
      = Some (r, w') /\ img_fs_lock w' = false).
Proof.
  split.
  - eexists. eexists. split; [vm_compute; reflexivity |].
    exact (proj2 (proj1 (@single_model_data_releases_lock (reference 2)
                           "temperature" "1" "X" dataset_cached) _ _ eq_refl)).
  - edestruct (proj2 (@single_model_data_releases_lock (reference 2)
                        "temperature" "1" "X" dataset_cached)
                 sample_config false dataset_cached 1)
      as (r & w' & Hrun & Hfree & _);
      [reflexivity | vm_compute; reflexivity | reflexivity | reflexivity
      | vm_compute; reflexivity |].
    exists r, w'. split; [exact Hrun | exact Hfree].
Defined.

(** X17 with the archive on disk. *)
Lemma multi_model_data_archive_cached_witness :
  exists r w',
    @multi_model_data (reference 2) "temperature" "X" archive_cached
    = Some (r, w') /\
    store w' = store archive_cached /\
    trace w'
    = [EvArchiveCheck "output/X/X_[-1x1]/X_temperature_[-1x1].zip" false].
Proof.
  exact (@multi_model_data_archive_cached (reference 2) "temperature" "X"
           sample_config false archive_cached archive_cached
           eq_refl eq_refl eq_refl).
Defined.

(** X18 with a file at the served path. *)
Lemma multi_model_data_serves_beside_archive_witness :
  exists resp w',
    @multi_model_data (reference 2) "temperature" "X" images_cached
    = Some (Ok resp, w') /\
    body resp = FileAt "output/X/X_temperature_[-1x1].zip" /\
    "output/X/X_temperature_[-1x1].zip"
    <> "output/X/X_[-1x1]/X_temperature_[-1x1].zip".
Proof.
  eexists. eexists. split; [vm_compute; reflexivity |].
  destruct (@multi_model_data_serves_beside_archive (reference 2)
              "temperature" "X" images_cached _ _ eq_refl)
    as (config & Hconfig & Hbody & _ & Hne).
  injection Hconfig as <-. split; [exact Hbody | exact Hne].
Defined.

(** X14 on an empty store. *)
Lemma scientific_dataset_twice_witness :
  exists w1,
    @scientific_dataset (reference 2) "X" empty_world
    = Some (Ok {| body := FileAt "output/X/X.nc"; status := 201 |}, w1) /\
    @scientific_dataset (reference 2) "X" w1
    = Some (Ok {| body := FileAt "output/X/X.nc"; status := 200 |}, w1) /\
    runs w1 = 1%nat.
Proof.
  exact (@scientific_dataset_twice (reference 2) "X" sample_config empty_world
           (store dataset_cached) eq_refl eq_refl eq_refl eq_refl eq_refl
           eq_refl).
Defined.

(** X19 on an empty store. *)
Lemma multi_model_data_guard_free_witness :
  exists r w',
    @multi_model_data (reference 2) "temperature" "X" empty_world
    = Some (r, w') /\
    img_fs_lock w' = false /\
    Forall (fun ev => guard_of ev <> Some true) (trace w').
Proof.
  destruct (@multi_model_data (reference 2) "temperature" "X" empty_world)
    as [[r w'] |] eqn:Hrun; [| vm_compute in Hrun; discriminate Hrun].
  exists r, w'. split; [reflexivity |].
  destruct (@multi_model_data_guard_free (reference 2) "temperature" "X"
              empty_world r w' eq_refl Hrun) as (Hfree & evs & Htrace & Hevs).
  split; [exact Hfree |]. rewrite Htrace. exact Hevs.
Defined.

(** X16 with a renderer that finds the disk full. *)
Lemma single_model_data_error_path_witness :
  exists w2,
    @single_model_data disk_full "temperature" "2" "X" empty_world
    = Some (Raise (IOError (Some 28)), w2) /\
    img_fs_lock w2 = true /\
    serve (@single_model_data disk_full "temperature" "2" "X") empty_world
    = Some (handle_exception (IOError (Some 28)), w2).
Proof.
  eexists.
  eapply (@single_model_data_error_path disk_full "temperature" "2" "X"
            empty_world sample_config true);
    [reflexivity | vm_compute; reflexivity | reflexivity | reflexivity
    | vm_compute; reflexivity].
Defined.

End ApiRequests.
